(** * gpstelemetry: GPS telemetry extraction from GoPro metadata

    A shallow embedding of [src/gpstelemetry.c] (the body of [main]) and the
    properties of its timestamp reconstruction, filtering and dispatch.

    Modelling conventions.
    - C [int], [uint32_t], [uint16_t] and [time_t] values are integers of [Z];
      the conversion [(int)fix] of a [uint32_t] is written out as a wrap-around,
      signed arithmetic is assumed not to overflow.
    - C [double] values are exact rationals of [Q]: IEEE-754 rounding is outside
      this model, every arithmetic operation is the exact one.
    - The collaborators the program calls (the MP4 reader, the GPMF decoder,
      [malloc]) are inputs: a payload records what the reader returned for it,
      a block records what the decoder and the allocator returned for it.
    - [timegm], [gmtime] and [strftime] are the C library's; they are modelled
      by the proleptic Gregorian calendar arithmetic they implement. *)

From Stdlib Require Import ZArith QArith Qround List Sorted String Ascii Bool Lia Lqa.
Import ListNotations.

Open Scope Z_scope.

(** ** C library: broken-down time *)

Module LibC.

(** [struct tm], the fields the program sets or prints. *)
Record tm := mk_tm {
  tm_sec  : Z;
  tm_min  : Z;
  tm_hour : Z;
  tm_mday : Z;   (* day of the month, 1-based *)
  tm_mon  : Z;   (* months since January, 0-based *)
  tm_year : Z    (* years since 1900 *)
}.

(** Days from 1970-01-01 to the civil date [y]-[m]-[d] ([m] in 1..12). *)
Definition days_from_civil (y m d : Z) : Z :=
  let y'  := if m <=? 2 then y - 1 else y in
  let era := y' / 400 in
  let yoe := y' - era * 400 in
  let mp  := if m <=? 2 then m + 9 else m - 3 in
  let doy := (153 * mp + 2) / 5 + d - 1 in
  let doe := yoe * 365 + yoe / 4 - yoe / 100 + doy in
  era * 146097 + doe - 719468.

(** [timegm]: seconds since the Unix epoch of a UTC broken-down time.  Fields
    out of their range are carried over, as the C library does: a month
    outside 0..11 moves the year, and day, hour, minute and second count
    linearly (day 0 is the last day of the previous month). *)
Definition timegm (t : tm) : Z :=
  let y := 1900 + tm_year t + tm_mon t / 12 in
  let m := tm_mon t mod 12 + 1 in
  let days := days_from_civil y m 1 + (tm_mday t - 1) in
  ((days * 24 + tm_hour t) * 60 + tm_min t) * 60 + tm_sec t.

(** The civil date of a day number (inverse of [days_from_civil]). *)
Definition civil_from_days (z : Z) : Z * Z * Z :=
  let z'  := z + 719468 in
  let era := z' / 146097 in
  let doe := z' - era * 146097 in
  let yoe := (doe - doe / 1460 + doe / 36524 - doe / 146096) / 365 in
  let doy := doe - (365 * yoe + yoe / 4 - yoe / 100) in
  let mp  := (5 * doy + 2) / 153 in
  let d   := doy - (153 * mp + 2) / 5 + 1 in
  let m   := if mp <? 10 then mp + 3 else mp - 9 in
  let y   := yoe + era * 400 in
  ((if m <=? 2 then y + 1 else y), m, d).

(** [gmtime]: the UTC broken-down time of a [time_t]. *)
Definition gmtime (t : Z) : tm :=
  let days := t / 86400 in
  let rem  := t mod 86400 in
  let '(y, m, d) := civil_from_days days in
  mk_tm (rem mod 60) (rem / 60 mod 60) (rem / 3600) d (m - 1) (y - 1900).

(** One decimal digit as a character. *)
Definition digit_char (d : Z) : ascii :=
  ascii_of_nat (48 + Z.to_nat (d mod 10)).

(** The last [width] decimal digits of [n], zero padded ([%02d], [%03d] and
    [%Y] on the values the program prints). *)
Fixpoint zero_padded (width : nat) (n : Z) : string :=
  match width with
  | O => EmptyString
  | S w => (zero_padded w (n / 10) ++ String (digit_char n) EmptyString)%string
  end.

(** [strftime(..., "%Y-%m-%dT%H:%M:%S", tm)] *)
Definition strftime_iso (t : tm) : string :=
  (zero_padded 4 (1900 + tm_year t) ++ "-" ++ zero_padded 2 (tm_mon t + 1) ++ "-"
   ++ zero_padded 2 (tm_mday t) ++ "T" ++ zero_padded 2 (tm_hour t) ++ ":"
   ++ zero_padded 2 (tm_min t) ++ ":" ++ zero_padded 2 (tm_sec t))%string.

End LibC.

(** ** C values *)

(** The value of a [char] as an [int] ([char] is signed on the targets the
    program is built for). *)
Definition char_to_int (c : ascii) : Z :=
  let n := Z.of_nat (nat_of_ascii c) in
  if n <? 128 then n else n - 256.

(** [s[i]] for a character buffer; the model reads NUL past the end. *)
Definition char_at (s : string) (i : nat) : Z :=
  match String.get i s with
  | Some c => char_to_int c
  | None => 0
  end.

(** [(int)x] for a [uint32_t] or [uint16_t] [x]: wrap-around into 32 bits. *)
Definition to_int (x : Z) : Z :=
  (x + 2147483648) mod 4294967296 - 2147483648.

(** [(int)x] and [(time_t)x] for a [double] [x]: truncation toward zero. *)
Definition trunc (x : Q) : Z :=
  Z.quot (Qnum x) (Zpos (Qden x)).

(** [fmod(x, 1.0)]: the fractional part, with the sign of [x]. *)
Definition fmod1 (x : Q) : Q :=
  (x - inject_Z (trunc x))%Q.

(** ** Program data *)

(** [gpsu]: the reconstructed clock. *)
Record gpsu_t := mk_gpsu {
  time : Z;           (* time_t: whole seconds since the Unix epoch *)
  milliseconds : Q    (* double: sub-second quantity to add to [time] *)
}.

(** The digit pair [10 * (s[i] - '0') + (s[i+1] - '0')]. *)
Definition two_digits (s : string) (i : nat) : Z :=
  10 * (char_at s i - 48) + (char_at s (i + 1) - 48).

(** The [struct tm] filled from a "GPSU" string. *)
Definition gpsu_tm (gpsu_string : string) : LibC.tm :=
  LibC.mk_tm
    (two_digits gpsu_string 10)
    (two_digits gpsu_string 8)
    (two_digits gpsu_string 6)
    (two_digits gpsu_string 4)
    (two_digits gpsu_string 2 - 1)
    (two_digits gpsu_string 0 + 100).

(** The "GPSU" branch of the sample loop. *)
Definition parse_gpsu (gpsu_string : string) : gpsu_t :=
  mk_gpsu
    (LibC.timegm (gpsu_tm gpsu_string))
    (100 * inject_Z (char_at gpsu_string 13 - 48)
     + 10 * inject_Z (char_at gpsu_string 14 - 48)
     + inject_Z (char_at gpsu_string 15 - 48))%Q.

(** The date column of a row:
    [strftime(...gmtime(&gpsu.time)); printf("%s.%03dZ", ftimestr, (int)gpsu.milliseconds)]. *)
Definition date_seconds (g : gpsu_t) : string :=
  LibC.strftime_iso (LibC.gmtime (time g)).

Definition date_millis (g : gpsu_t) : Z :=
  trunc (milliseconds g).

(** ** GPMF collaborators *)

(** The keys the program tells apart ([STR2FOURCC]); [OTHER] is any other key. *)
Inductive fourcc := GPSU | GPSF | GPSP | GPS5 | GPS9 | OTHER.

(** [GPMF_ERR]: the codes the program tells apart. *)
Inductive GPMF_ERR := GPMF_OK | GPMF_ERROR_UNKNOWN_TYPE | GPMF_ERROR_OTHER.

Definition is_ok (e : GPMF_ERR) : bool :=
  match e with GPMF_OK => true | _ => false end.

(** One position of the GPMF cursor inside a payload, with what the decoder
    and the allocator return for it. *)
Record block := mk_block {
  key        : fourcc;      (* GPMF_Key *)
  samples    : Z;           (* GPMF_Repeat, uint32_t *)
  elements   : Z;           (* GPMF_ElementsInStruct, uint32_t *)
  structsize : Z;           (* GPMF_StructSize, uint32_t *)
  malloc_ok  : bool;        (* malloc(buffersize) returned a buffer *)
  decode_res : GPMF_ERR;    (* result of GPMF_FormattedData / GPMF_ScaledData *)
  as_string  : string;      (* tmpbuffer read as char[] *)
  as_uint32  : list Z;      (* tmpbuffer read as uint32_t[] *)
  as_uint16  : list Z;      (* tmpbuffer read as uint16_t[] *)
  as_double  : list Q       (* tmpbuffer read as double[] *)
}.

(** [samples * elements * structsize] in [uint32_t]. *)
Definition buffersize (b : block) : Z :=
  (samples b * elements b * structsize b) mod 4294967296.

(** One payload of the MP4 source, with what the reader returns for it. *)
Record payload := mk_payload {
  payload_ok : bool;        (* GetPayload returned a payload *)
  time_ret   : GPMF_ERR;    (* result of GetPayloadTime *)
  start      : Q;           (* its outputs *)
  finish     : Q;
  init_ret   : GPMF_ERR;    (* result of GPMF_Init *)
  blocks     : list block   (* the cursor positions, until GPMF_Next fails *)
}.

(** One input file. *)
Record file := mk_file {
  mp4filename      : string;
  mp4handle_ok     : bool;  (* OpenMP4Source returned a handle *)
  metadataduration : Q;     (* GetDuration *)
  payloads         : list payload
}.

(** ** Program state *)

(** The command-line options, fixed for the run. *)
Record options := mk_options {
  min_fix        : Z;       (* -1 means no filtering *)
  max_precision  : Z;       (* -1 means no filtering *)
  print_filename : bool;
  print_filepath : bool
}.

(** The variables of [main] that the loops update. *)
Record state := mk_state {
  file_start  : Q;          (* time base of the current file *)
  use_gps9    : bool;
  ret         : GPMF_ERR;
  file_finish : Q;          (* running end time of the current file *)
  fix_        : Z;          (* [fix]: uint32_t, data from "GPSF" *)
  precision   : Z;          (* uint16_t, data from "GPSP" *)
  gpsu        : gpsu_t      (* data from "GPSU" *)
}.

Definition set_file_start (v : Q) (s : state) : state :=
  mk_state v (use_gps9 s) (ret s) (file_finish s) (fix_ s) (precision s) (gpsu s).
Definition set_use_gps9 (v : bool) (s : state) : state :=
  mk_state (file_start s) v (ret s) (file_finish s) (fix_ s) (precision s) (gpsu s).
Definition set_ret (v : GPMF_ERR) (s : state) : state :=
  mk_state (file_start s) (use_gps9 s) v (file_finish s) (fix_ s) (precision s) (gpsu s).
Definition set_file_finish (v : Q) (s : state) : state :=
  mk_state (file_start s) (use_gps9 s) (ret s) v (fix_ s) (precision s) (gpsu s).
Definition set_fix (v : Z) (s : state) : state :=
  mk_state (file_start s) (use_gps9 s) (ret s) (file_finish s) v (precision s) (gpsu s).
Definition set_precision (v : Z) (s : state) : state :=
  mk_state (file_start s) (use_gps9 s) (ret s) (file_finish s) (fix_ s) v (gpsu s).
Definition set_gpsu (v : gpsu_t) (s : state) : state :=
  mk_state (file_start s) (use_gps9 s) (ret s) (file_finish s) (fix_ s) (precision s) v.

(** The variables of one block's sample loop. *)
Record cursor := mk_cursor {
  ptr : nat;                (* offset of [ptr] in tmpbuffer, in doubles *)
  now : Q
}.

(** ** Output *)

(** One data row, column by column. *)
Record row := mk_row {
  row_file   : option string;  (* the file column, when requested *)
  row_cts    : Q;              (* "%f" *)
  row_date   : string;         (* "%Y-%m-%dT%H:%M:%S" *)
  row_millis : Z;              (* "%03d" of (int)gpsu.milliseconds *)
  row_values : list Q;         (* the "%.6f" columns *)
  row_ints   : list Z          (* the "%d" columns *)
}.

Inductive line :=
| Header (columns : list string)
| Row (r : row).

Definition column_names : list string :=
  [ "file"; "cts"; "date"; "GPS (Lat.) [deg]"; "GPS (Long.) [deg]"; "GPS (Alt.) [m]";
    "GPS (2D speed) [m/s]"; "GPS (3D speed) [m/s]"; "fix"; "precision" ]%string.

Definition gps9_indexes : list nat :=
  [ 0; 1; 2; 3; 4; 8; 7 ]%nat.

(** ** The sample loop *)

(** [ptr[i]] in tmpbuffer; the model reads 0.0 past the end of the buffer. *)
Definition read_double (b : block) (c : cursor) (i : nat) : Q :=
  nth (ptr c + i) (as_double b) 0%Q.

(** [gps9_epoch]: [timegm] of a zeroed [struct tm] with [tm_year = 100]; the
    zero day of the month makes it 1999-12-31T00:00:00. *)
Definition gps9_epoch : Z :=
  LibC.timegm (LibC.mk_tm 0 0 0 0 0 100).

(** The text after the last '/' of a path, if there is one ([strrchr] + 1). *)
Fixpoint after_last_slash (s : string) : option string :=
  match s with
  | EmptyString => None
  | String c rest =>
      match after_last_slash rest with
      | Some t => Some t
      | None => if Ascii.eqb c "/" then Some rest else None
      end
  end.

Definition display_name (mp4filename : string) : string :=
  match after_last_slash mp4filename with
  | Some t => t
  | None => mp4filename
  end.

(** The file column of a row. *)
Definition file_column (o : options) (mp4filename : string) : option string :=
  if print_filepath o then Some mp4filename
  else if print_filename o then Some (display_name mp4filename)
  else None.

(** The filter condition of both position branches, on [int] operands. *)
Definition filter_passes (o : options) (fix_v precision_v : Z) : bool :=
  ((min_fix o <? 0) || (min_fix o <=? fix_v))
  && ((max_precision o <? 0) || (precision_v <=? max_precision o)).

(** The clock advance that ends both position branches:
    [gpsu.milliseconds += step * 1000.0; if (gpsu.milliseconds >= 1000.0) ...]. *)
Definition advance (step : Q) (g : gpsu_t) : gpsu_t :=
  let ms := (milliseconds g + step * 1000)%Q in
  if Qle_bool 1000 ms
  then mk_gpsu (time g + 1) (ms - 1000)%Q
  else mk_gpsu (time g) ms.

(** The clock read from the day and seconds fields of a "GPS9" sample. *)
Definition gps9_seed (b : block) (c : cursor) : gpsu_t :=
  let t0 := gps9_epoch + (trunc (read_double b c 5) + 1) * 86400 in
  let sub_secs := fmod1 (read_double b c 6) in
  mk_gpsu
    (t0 + trunc (read_double b c 6 - sub_secs)%Q)
    (inject_Z (trunc (1000 * sub_secs)%Q)).

(** The "GPS5" branch for one sample. *)
Definition gps5_sample (o : options) (mp4filename : string) (b : block)
    (step : Q) (c : cursor) (s : state) : cursor * state * list row :=
  let out :=
    if filter_passes o (to_int (fix_ s)) (to_int (precision s))
    then [ mk_row (file_column o mp4filename)
             ((file_start s + now c) * 1000)%Q
             (date_seconds (gpsu s)) (date_millis (gpsu s))
             (map (read_double b c) (seq 0 (Z.to_nat (elements b))))
             [ to_int (fix_ s); to_int (precision s) ] ]
    else [] in
  (mk_cursor (ptr c + Z.to_nat (elements b)) (now c + step)%Q,
   set_gpsu (advance step (gpsu s)) s,
   out).

(** The "GPS9" branch for one sample. *)
Definition gps9_sample (o : options) (mp4filename : string) (b : block)
    (step : Q) (c : cursor) (s : state) : cursor * state * list row :=
  let s1 := set_use_gps9 true s in
  let gps9_fix := trunc (read_double b c 8) in
  let gps9_precision := trunc (read_double b c 7) in
  let '(s2, out) :=
    if filter_passes o gps9_fix gps9_precision
    then
      let s2 := if Qeq_bool 0 (now c) then set_gpsu (gps9_seed b c) s1 else s1 in
      (s2, [ mk_row (file_column o mp4filename)
               ((file_start s + now c) * 1000)%Q
               (date_seconds (gpsu s2)) (date_millis (gpsu s2))
               (map (read_double b c) gps9_indexes)
               [] ])
    else (s1, []) in
  (mk_cursor (ptr c + Z.to_nat (elements b)) (now c + step)%Q,
   set_gpsu (advance step (gpsu s2)) s2,
   out).

(** The body of [for (i = 0; i < samples; i++)]: the chain of branches on [key]. *)
Definition sample (o : options) (mp4filename : string) (b : block)
    (step : Q) (c : cursor) (s : state) : cursor * state * list row :=
  match key b with
  | GPSU => (c, set_gpsu (parse_gpsu (as_string b)) s, [])
  | GPS5 => if use_gps9 s then (c, s, []) else gps5_sample o mp4filename b step c s
  | GPS9 => gps9_sample o mp4filename b step c s
  | GPSF => (c, set_fix (hd 0 (as_uint32 b)) s, [])
  | GPSP => (c, set_precision (hd 0 (as_uint16 b)) s, [])
  | OTHER => (c, s, [])
  end.

Fixpoint sample_loop (o : options) (mp4filename : string) (b : block)
    (step : Q) (n : nat) (c : cursor) (s : state) : cursor * state * list row :=
  match n with
  | O => (c, s, [])
  | S n' =>
      let '(c1, s1, out1) := sample o mp4filename b step c s in
      let '(c2, s2, out2) := sample_loop o mp4filename b step n' c1 s1 in
      (c2, s2, out1 ++ out2)
  end.

(** ** The block, payload and file loops *)

(** [res] after the decode calls: only the five GPS keys are decoded. *)
Definition decode (b : block) : GPMF_ERR :=
  match key b with
  | OTHER => GPMF_ERROR_UNKNOWN_TYPE
  | _ => decode_res b
  end.

(** The body of the [do ... while] over the blocks of a payload. *)
Definition process_block (o : options) (mp4filename : string) (start finish : Q)
    (b : block) (s : state) : state * list row :=
  if samples b =? 0 then (s, [])
  else if structsize b =? 0 then (s, [])
  else if negb (malloc_ok b) then (s, [])
  else if is_ok (decode b) then
    let step := ((finish - start) / inject_Z (samples b))%Q in
    let '(_, s', out) :=
      sample_loop o mp4filename b step (Z.to_nat (samples b))
        (mk_cursor 0 start) (set_file_finish finish s) in
    (s', out)
  else (s, []).

Fixpoint block_loop (o : options) (mp4filename : string) (start finish : Q)
    (bs : list block) (s : state) : state * list row :=
  match bs with
  | [] => (s, [])
  | b :: rest =>
      let '(s1, out1) := process_block o mp4filename start finish b s in
      let '(s2, out2) := block_loop o mp4filename start finish rest s1 in
      (s2, out1 ++ out2)
  end.

(** [for (index = 0; index < payloads; index++)], with its three [break]s.
    [fix], [precision] and [gpsu] are declared in the loop body without an
    initialiser and keep their storage from one iteration to the next; the
    program relies on it, and so does the model. *)
Fixpoint payload_loop (o : options) (mp4filename : string)
    (ps : list payload) (s : state) : state * list row :=
  match ps with
  | [] => (s, [])
  | p :: rest =>
      if negb (payload_ok p) then (s, [])
      else
        let s1 := set_ret (time_ret p) s in
        if negb (is_ok (ret s1)) then (s1, [])
        else
          let s2 := set_ret (init_ret p) s1 in
          if negb (is_ok (ret s2)) then (s2, [])
          else
            let '(s3, out1) := block_loop o mp4filename (start p) (finish p) (blocks p) s2 in
            let '(s4, out2) := payload_loop o mp4filename rest s3 in
            (s4, out1 ++ out2)
  end.

(** The header row, printed for the first file. *)
Definition header (o : options) : line :=
  Header (if print_filename o || print_filepath o
          then column_names else tl column_names).

(** How [main] ends. *)
Inductive exit_status :=
| ExitMinusOne                 (* return -1 *)
| ExitRet (r : GPMF_ERR).      (* return (int)ret *)

(** The payloads of one opened file: from [file_finish = 0.0] to
    [file_start += file_finish].  The boolean tells whether the file loop goes
    on ([false] after the [break] on [ret != GPMF_OK]). *)
Definition process_file (o : options) (f : file) (s : state) : bool * state * list row :=
  let '(s1, out) := payload_loop o (mp4filename f) (payloads f) (set_file_finish 0 s) in
  if is_ok (ret s1)
  then (true, set_file_start (file_start s1 + file_finish s1)%Q s1, out)
  else (false, s1, out).

(** [for (argc_index = first_file_index; argc_index < argc; argc_index++)];
    [first] is [first_file_index == argc_index]. *)
Fixpoint file_loop (o : options) (first : bool) (fs : list file) (s : state)
    : exit_status * state * list line :=
  match fs with
  | [] => (ExitRet (ret s), s, [])
  | f :: rest =>
      if negb (mp4handle_ok f) then (ExitMinusOne, s, [])
      else if Qle_bool (metadataduration f) 0 then (ExitMinusOne, s, [])
      else
        let head := if first then [header o] else [] in
        let '(go_on, s1, out) := process_file o f s in
        if go_on then
          let '(e, s2, out2) := file_loop o false rest s1 in
          (e, s2, head ++ map Row out ++ out2)
        else (ExitRet (ret s1), s1, head ++ map Row out)
  end.

(** [main] after the option parsing.  [fix0], [precision0] and [gpsu0] are
    the indeterminate initial values of [fix], [precision] and [gpsu]. *)
Definition initial_state (fix0 precision0 : Z) (gpsu0 : gpsu_t) : state :=
  mk_state 0 false GPMF_OK 0 fix0 precision0 gpsu0.

Definition main (o : options) (fs : list file) (fix0 precision0 : Z) (gpsu0 : gpsu_t)
    : exit_status * list line :=
  match fs with
  | [] => (ExitMinusOne, [])
  | _ =>
      let '(e, _, out) := file_loop o true fs (initial_state fix0 precision0 gpsu0) in
      (e, out)
  end.

(** ** The command line *)

(** [isspace] in the C locale. *)
Definition isspace (c : ascii) : bool :=
  let n := nat_of_ascii c in
  Nat.eqb n 32 || (Nat.leb 9 n && Nat.leb n 13).

(** The value of a decimal digit character. *)
Definition digit_value (c : ascii) : option Z :=
  let n := Z.of_nat (nat_of_ascii c) in
  if (48 <=? n) && (n <=? 57) then Some (n - 48) else None.

(** The digits read by [atoi], most significant first, until the first
    character that is not a digit. *)
Fixpoint atoi_digits (acc : Z) (s : string) : Z :=
  match s with
  | EmptyString => acc
  | String c rest =>
      match digit_value c with
      | Some d => atoi_digits (10 * acc + d) rest
      | None => acc
      end
  end.

(** [atoi] after the leading white space: an optional sign, then digits. *)
Definition atoi_signed (s : string) : Z :=
  match s with
  | String c rest =>
      if Ascii.eqb c "-" then - atoi_digits 0 rest
      else if Ascii.eqb c "+" then atoi_digits 0 rest
      else atoi_digits 0 s
  | EmptyString => 0
  end.

(** [atoi], the C library's; values outside [int] are outside the model. *)
Fixpoint atoi (s : string) : Z :=
  match s with
  | EmptyString => 0
  | String c rest => if isspace c then atoi rest else atoi_signed s
  end.

(** [s + n] for a string of at least [n] characters. *)
Fixpoint advance_chars (n : nat) (s : string) : string :=
  match n, s with
  | O, _ => s
  | S n', String _ rest => advance_chars n' rest
  | S _, EmptyString => EmptyString
  end.

Definition set_min_fix (v : Z) (o : options) : options :=
  mk_options v (max_precision o) (print_filename o) (print_filepath o).
Definition set_max_precision (v : Z) (o : options) : options :=
  mk_options (min_fix o) v (print_filename o) (print_filepath o).
Definition set_print_filename (v : bool) (o : options) : options :=
  mk_options (min_fix o) (max_precision o) v (print_filepath o).
Definition set_print_filepath (v : bool) (o : options) : options :=
  mk_options (min_fix o) (max_precision o) (print_filename o) v.

(** One turn of the option loop on [argv[first_file_index]]: the options after
    it, or [None] at the [break] ("not a parameter, must be a filename"). *)
Definition parse_arg (o : options) (arg : string) : option options :=
  if String.eqb arg "--print_filename" then Some (set_print_filename true o)
  else if String.eqb arg "--print_filepath" then Some (set_print_filepath true o)
  else if String.prefix "--min_fix=" arg
       then Some (set_min_fix (atoi (advance_chars 10 arg)) o)
  else if String.prefix "--max_precision=" arg
       then Some (set_max_precision (atoi (advance_chars 16 arg)) o)
  else None.

(** [while (first_file_index < argc)]: the options, and the arguments from
    [first_file_index] on. *)
Fixpoint parse_options (o : options) (args : list string) : options * list string :=
  match args with
  | [] => (o, [])
  | arg :: rest =>
      match parse_arg o arg with
      | Some o' => parse_options o' rest
      | None => (o, args)
      end
  end.

(** The options before the command line is read. *)
Definition default_options : options := mk_options (-1) (-1) false false.

(** What the MP4 reader returns for the file named [name]. *)
Definition open_source (reader : string -> file) (name : string) : file :=
  mk_file name (mp4handle_ok (reader name)) (metadataduration (reader name))
    (payloads (reader name)).

(** [main] from [argv[1]], ..., [argv[argc - 1]]. *)
Definition main_argv (args : list string) (reader : string -> file)
    (fix0 precision0 : Z) (gpsu0 : gpsu_t) : exit_status * list line :=
  match args with
  | [] => (ExitMinusOne, [])
  | _ =>
      let '(o, names) := parse_options default_options args in
      main o (map (open_source reader) names) fix0 precision0 gpsu0
  end.

(** ** Readings of the specification *)

(** A threshold option of [main] read as the specification's optional
    threshold: negative values (the default is -1) mean "unset". *)
Definition threshold (n : Z) : option Z :=
  if n <? 0 then None else Some n.

(** FilterPolicy.passes, following the specification's words: true if
    (minFix unset OR fix >= minFix) AND (maxPrecision unset OR
    precision <= maxPrecision). *)
Definition passes_spec (minFix maxPrecision : option Z) (fix_v precision_v : Z) : Prop :=
  (minFix = None \/ exists m, minFix = Some m /\ fix_v >= m)
  /\ (maxPrecision = None \/ exists m, maxPrecision = Some m /\ precision_v <= m).

(** A block that reaches its sample loop: none of the three [continue]s is
    taken and the decode call succeeds. *)
Definition decoded (b : block) : bool :=
  negb (samples b =? 0) && negb (structsize b =? 0) && malloc_ok b && is_ok (decode b).

(** A payload that the reader delivers: none of the three [break]s of the
    payload loop is taken. *)
Definition delivered (p : payload) : bool :=
  payload_ok p && is_ok (time_ret p) && is_ok (init_ret p).

(** The running end time after the payloads [ps], from the value [acc]: the
    finish time of the last payload, before the first undelivered one, in which
    a block was decoded. *)
Fixpoint file_end (acc : Q) (ps : list payload) : Q :=
  match ps with
  | [] => acc
  | p :: rest =>
      if delivered p
      then file_end (if existsb decoded (blocks p) then finish p else acc) rest
      else acc
  end.

(** Well-formed payload timing: every interval has [0 <= start <= finish], and
    the finish times do not decrease along the file (nor go below [bound]). *)
Fixpoint times_ok (bound : Q) (ps : list payload) : bool :=
  match ps with
  | [] => true
  | p :: rest =>
      Qle_bool 0 (start p) && Qle_bool (start p) (finish p)
      && Qle_bool bound (finish p) && times_ok (finish p) rest
  end.

(** The position-bearing blocks. *)
Definition is_position (b : block) : bool :=
  match key b with
  | GPS5 | GPS9 => true
  | _ => false
  end.

(** Whether the sample under the cursor [c] of block [b] emits a row. *)
Definition sample_emits (o : options) (b : block) (c : cursor) (s : state) : bool :=
  match key b with
  | GPS5 => negb (use_gps9 s)
            && filter_passes o (to_int (fix_ s)) (to_int (precision s))
  | GPS9 => filter_passes o (trunc (read_double b c 8)) (trunc (read_double b c 7))
  | _ => false
  end.

(** Whether the option loop takes [arg] for an option. *)
Definition is_option (arg : string) : bool :=
  match parse_arg default_options arg with
  | Some _ => true
  | None => false
  end.

(** Whether [arg] sets one of the two thresholds. *)
Definition is_threshold_option (arg : string) : bool :=
  String.prefix "--min_fix=" arg || String.prefix "--max_precision=" arg.

(** A string without '/'. *)
Fixpoint no_slash (s : string) : bool :=
  match s with
  | EmptyString => true
  | String c rest => negb (Ascii.eqb c "/") && no_slash rest
  end.

(** A file that is not processed: no handle, or no positive duration. *)
Definition unusable (f : file) : bool :=
  negb (mp4handle_ok f) || Qle_bool (metadataduration f) 0.

(** [ret] after the payloads [ps], from the value [r], read off the reader's
    results alone. *)
Fixpoint payload_status (r : GPMF_ERR) (ps : list payload) : GPMF_ERR :=
  match ps with
  | [] => r
  | p :: rest =>
      if negb (payload_ok p) then r
      else if negb (is_ok (time_ret p)) then time_ret p
      else if negb (is_ok (init_ret p)) then init_ret p
      else payload_status (init_ret p) rest
  end.

(** The exit status of the file loop, from [ret = r], read off the reader's
    results alone. *)
Fixpoint run_status (r : GPMF_ERR) (fs : list file) : exit_status :=
  match fs with
  | [] => ExitRet r
  | f :: rest =>
      if unusable f then ExitMinusOne
      else if is_ok (payload_status r (payloads f))
           then run_status (payload_status r (payloads f)) rest
           else ExitRet (payload_status r (payloads f))
  end.

(** The number of columns of a line of the output; the date and its
    milliseconds make one column. *)
Definition line_width (l : line) : nat :=
  match l with
  | Header columns => List.length columns
  | Row r =>
      (match row_file r with Some _ => 1 | None => 0 end)
      + 2 + List.length (row_values r) + List.length (row_ints r)
  end.

(** All the blocks of the files [fs]. *)
Definition all_blocks (fs : list file) : list block :=
  flat_map (fun f => flat_map blocks (payloads f)) fs.

(** The elements of sample [i] of a block, and its columns as a "GPS9"
    sample. *)
Definition sample_values (b : block) (i : nat) : list Q :=
  map (fun j => nth (i * Z.to_nat (elements b) + j) (as_double b) 0%Q)
    (seq 0 (Z.to_nat (elements b))).

Definition gps9_columns (b : block) (i : nat) : list Q :=
  map (fun j => nth (i * Z.to_nat (elements b) + j) (as_double b) 0%Q) gps9_indexes.

(** Whether sample [i] of a "GPS9" block passes the filter on its own fix
    (index 8) and precision (index 7). *)
Definition gps9_passes (o : options) (b : block) (i : nat) : bool :=
  filter_passes o
    (trunc (nth (i * Z.to_nat (elements b) + 8) (as_double b) 0%Q))
    (trunc (nth (i * Z.to_nat (elements b) + 7) (as_double b) 0%Q)).

(** The clock as one number of milliseconds. *)
Definition clock_millis (g : gpsu_t) : Q :=
  (inject_Z (time g) * 1000 + milliseconds g)%Q.

(** The columns of the rows of one sample. *)
Definition row_shape (o : options) (name : string) (b : block) (r : row) : Prop :=
  row_file r = file_column o name
  /\ ((key b = GPS9 /\ List.length (row_values r) = 7%nat /\ row_ints r = [])
      \/ (key b = GPS5 /\ List.length (row_values r) = Z.to_nat (elements b)
          /\ List.length (row_ints r) = 2%nat)).

(** The order of two rows by their [cts] column. *)
Definition cts_le (a b : row) : Prop :=
  (row_cts a <= row_cts b)%Q.

(** Payload intervals that follow one another: [lo <= start <= finish] for
    the first, and each next interval starts no earlier than the one before it
    finishes. *)
Fixpoint windows_ordered (lo : Q) (ps : list payload) : bool :=
  match ps with
  | [] => true
  | p :: rest =>
      Qle_bool lo (start p) && Qle_bool (start p) (finish p)
      && windows_ordered (finish p) rest
  end.

(** A payload with at most one position block. *)
Definition one_position_block (p : payload) : bool :=
  Nat.leb (List.length (filter is_position (blocks p))) 1.

(** The Gregorian calendar: leap years and the days of month [m] (1..12). *)
Definition is_leap (y : Z) : bool :=
  (y mod 4 =? 0) && (negb (y mod 100 =? 0) || (y mod 400 =? 0)).

Definition days_in_month (y m : Z) : Z :=
  if m =? 2 then (if is_leap y then 29 else 28)
  else if (m =? 4) || (m =? 6) || (m =? 9) || (m =? 11) then 30
  else 31.

(** The text of a clock-sync block, "YYMMDDhhmmss.fff". *)
Definition gpsu_text (yy mo dd hh mi ss fff : Z) : string :=
  (LibC.zero_padded 2 yy ++ LibC.zero_padded 2 mo ++ LibC.zero_padded 2 dd
   ++ LibC.zero_padded 2 hh ++ LibC.zero_padded 2 mi ++ LibC.zero_padded 2 ss
   ++ "." ++ LibC.zero_padded 3 fff)%string.

(** A date of the years 2000 to 2099 and a time of the day. *)
Definition valid_gpsu (yy mo dd hh mi ss fff : Z) : bool :=
  (0 <=? yy) && (yy <=? 99) && (1 <=? mo) && (mo <=? 12)
  && (1 <=? dd) && (dd <=? days_in_month (2000 + yy) mo)
  && (0 <=? hh) && (hh <=? 23) && (0 <=? mi) && (mi <=? 59)
  && (0 <=? ss) && (ss <=? 59) && (0 <=? fff) && (fff <=? 999).

(** Whether the day number of the date [yy]-[mo]-[dd] gives that date back,
    and the check of all the dates of the years 2000 to 2099. *)
Definition date_round_trip (yy mo dd : nat) : bool :=
  let '(y, m, d) :=
    LibC.civil_from_days
      (LibC.days_from_civil (2000 + Z.of_nat yy) (Z.of_nat mo) 1 + (Z.of_nat dd - 1)) in
  (y =? 2000 + Z.of_nat yy) && (m =? Z.of_nat mo) && (d =? Z.of_nat dd).

Definition century_round_trip : bool :=
  forallb (fun yy =>
    forallb (fun mo =>
      forallb (fun dd =>
        negb (Z.of_nat dd <=? days_in_month (2000 + Z.of_nat yy) (Z.of_nat mo))
        || date_round_trip yy mo dd)
        (seq 1 31))
      (seq 1 12))
    (seq 0 100).

(** A block that runs the "GPS9" branch at least once. *)
Definition sets_flag (b : block) : bool :=
  decoded b && (0 <? samples b)
  && match key b with GPS9 => true | _ => false end.

(** The carried fix after the blocks [bs], from the value [acc]: the first
    element of the last decoded "GPSF" block with a sample; and the same for the
    precision and "GPSP". *)
Definition carried_fix (acc : Z) (bs : list block) : Z :=
  fold_left
    (fun a b =>
       if decoded b && (0 <? samples b)
          && match key b with GPSF => true | _ => false end
       then hd 0 (as_uint32 b) else a)
    bs acc.

Definition carried_precision (acc : Z) (bs : list block) : Z :=
  fold_left
    (fun a b =>
       if decoded b && (0 <? samples b)
          && match key b with GPSP => true | _ => false end
       then hd 0 (as_uint16 b) else a)
    bs acc.

(** ** Sample inputs *)

Module Samples.

(** No thresholds, and the thresholds [--min_fix=3 --max_precision=100]. *)
Definition no_filter : options := mk_options (-1) (-1) false false.
Definition strict_filter : options := mk_options 3 100 false false.

Definition clock0 : gpsu_t := mk_gpsu 0 0.

(** [main]'s variables before the first file, with fix 3 and precision 50. *)
Definition s0 : state := initial_state 3 50 clock0.

(** A "GPS5" block of [n] samples read from [values]. *)
Definition gps5_block (n : Z) (values : list Q) : block :=
  mk_block GPS5 n 5 20 true GPMF_OK EmptyString [] [] values.

(** A "GPS9" block of [n] samples read from [values]. *)
Definition gps9_block (n : Z) (values : list Q) : block :=
  mk_block GPS9 n 9 32 true GPMF_OK EmptyString [] [] values.

Definition gpsf_block (values : list Z) : block :=
  mk_block GPSF (Z.of_nat (List.length values)) 1 4 true GPMF_OK EmptyString values [] [].

Definition gpsp_block (values : list Z) : block :=
  mk_block GPSP (Z.of_nat (List.length values)) 1 2 true GPMF_OK EmptyString [] values [].

Definition gpsu_block (text : string) : block :=
  mk_block GPSU 1 16 1 true GPMF_OK text [] [] [].

(** A block of a key the program does not decode. *)
Definition accl_block : block :=
  mk_block OTHER 200 3 6 true GPMF_OK EmptyString [] [] [].

(** Latitude, longitude, altitude, 2D speed, 3D speed. *)
Definition gps5_values : list Q := [ 45.5; 7.25; 300; 2.5; 2.75 ]%Q.

(** A "GPS9" sample: the five values above, then days since 2000, seconds of
    the day, DOP and fix. *)
Definition gps9_values (days secs dop fix_v : Q) : list Q :=
  (gps5_values ++ [ days; secs; dop; fix_v ])%list.

(** A payload that the reader delivers without error. *)
Definition good_payload (st fi : Q) (bs : list block) : payload :=
  mk_payload true GPMF_OK st fi GPMF_OK bs.

(** A file with one "GPS9" block, and a file with one "GPS5" block. *)
Definition file_gps9 : file :=
  mk_file "/media/GX010001.MP4" true 1
    [ good_payload 0 1 [ gps9_block 1 (gps9_values 7836 45296.5 1.5 3) ] ].

Definition file_gps5 : file :=
  mk_file "/media/GH010002.MP4" true 1
    [ good_payload 0 1 [ gpsu_block "210615123456.789"; gps5_block 1 gps5_values ] ].

(** A file whose last payload carries no GPS block, the same file with GPS
    data in its last payload, and the file after them. *)
Definition file_a : file :=
  mk_file "a.mp4" true 10
    [ good_payload 0 5 [ gps5_block 5 (List.concat (repeat gps5_values 5)) ];
      good_payload 5 10 [ accl_block ] ].

Definition file_a' : file :=
  mk_file "a.mp4" true 10
    [ good_payload 0 5 [ gps5_block 5 (List.concat (repeat gps5_values 5)) ];
      good_payload 5 10 [ gps5_block 5 (List.concat (repeat gps5_values 5)) ] ].

Definition file_b : file :=
  mk_file "b.mp4" true 1
    [ good_payload 0 1 [ gps5_block 1 gps5_values ] ].

End Samples.

(** * Properties *)

(** ** The C library model on known dates *)

Example timegm_unix_epoch : LibC.timegm (LibC.mk_tm 0 0 0 1 0 70) = 0.
Proof. reflexivity. Qed.

Example timegm_y2k : LibC.timegm (LibC.mk_tm 0 0 0 1 0 100) = 946684800.
Proof. reflexivity. Qed.

Example timegm_leap_day : LibC.timegm (LibC.mk_tm 59 59 23 29 1 124) = 1709251199.
Proof. reflexivity. Qed.

Example gmtime_leap_day :
  LibC.gmtime 1709251199 = LibC.mk_tm 59 59 23 29 1 124.
Proof. reflexivity. Qed.

Example gps9_epoch_value : gps9_epoch = 946684800 - 86400.
Proof. reflexivity. Qed.

(** ** Clock-sync parsing *)

(** C5: the "GPSU" string "210615123456.789" is parsed into the broken-down
    time year 121 (2021), month 5 (June, 0-based), day 15, 12:34:56, whose
    [timegm] is 2021-06-15T12:34:56 UTC, and into 789 milliseconds. *)
Theorem C5_parse_gpsu_example :
  gpsu_tm "210615123456.789" = LibC.mk_tm 56 34 12 15 5 121
  /\ time (parse_gpsu "210615123456.789") = 1623760496
  /\ LibC.gmtime (time (parse_gpsu "210615123456.789")) = LibC.mk_tm 56 34 12 15 5 121
  /\ date_seconds (parse_gpsu "210615123456.789") = "2021-06-15T12:34:56"%string
  /\ (milliseconds (parse_gpsu "210615123456.789") == 789)%Q
  /\ date_millis (parse_gpsu "210615123456.789") = 789.
Proof.
  repeat split; vm_compute; reflexivity.
Qed.

(** ** The filter *)

Lemma filter_passes_iff (o : options) (f p : Z) :
  filter_passes o f p = true <->
  (min_fix o < 0 \/ f >= min_fix o) /\ (max_precision o < 0 \/ p <= max_precision o).
Proof.
  unfold filter_passes.
  rewrite andb_true_iff, !orb_true_iff, !Z.ltb_lt, !Z.leb_le. lia.
Qed.

Lemma threshold_none (n : Z) : threshold n = None <-> n < 0.
Proof.
  unfold threshold. destruct (Z.ltb_spec n 0); split; intros; try lia; congruence.
Qed.

Lemma threshold_some (n m : Z) : threshold n = Some m <-> 0 <= n /\ m = n.
Proof.
  unfold threshold. destruct (Z.ltb_spec n 0); split.
  - discriminate.
  - lia.
  - intros [= <-]. lia.
  - intros [_ ->]. reflexivity.
Qed.

Lemma passes_spec_iff (o : options) (f p : Z) :
  filter_passes o f p = true <->
  passes_spec (threshold (min_fix o)) (threshold (max_precision o)) f p.
Proof.
  rewrite filter_passes_iff. unfold passes_spec. split.
  - intros [H1 H2]. split.
    + destruct (Z.ltb_spec (min_fix o) 0) as [L | L].
      * left. now apply threshold_none.
      * right. exists (min_fix o). split; [apply threshold_some; lia | lia].
    + destruct (Z.ltb_spec (max_precision o) 0) as [L | L].
      * left. now apply threshold_none.
      * right. exists (max_precision o). split; [apply threshold_some; lia | lia].
  - intros [[H1 | (m & H1 & G1)] [H2 | (m' & H2 & G2)]];
      rewrite ?threshold_none, ?threshold_some in *; lia.
Qed.

(** C6, the claim as stated fails on the values of the sample: a "GPS9"
    sample of precision 100.5 is emitted under the maximum 100, because the
    filter compares its truncation 100; and a carried "GPS5" fix of 4294967295
    is dropped under the minimum 3, because the filter compares its
    conversion to [int], -1. *)
Lemma C6_converted_operands_counterexample :
  (let o := mk_options (-1) 100 false false in
   let b := Samples.gps9_block 1 (Samples.gps9_values 7836 45296.5 100.5 3) in
   snd (gps9_sample o "f" b 1 (mk_cursor 0 0) Samples.s0) <> []
   /\ ~ (read_double b (mk_cursor 0 0) 7 <= 100)%Q)
  /\ (let s := set_fix 4294967295 Samples.s0 in
      snd (gps5_sample Samples.strict_filter "f"
             (Samples.gps5_block 1 Samples.gps5_values) 1 (mk_cursor 0 0) s) = []
      /\ fix_ s >= min_fix Samples.strict_filter
      /\ precision s <= max_precision Samples.strict_filter).
Proof.
  repeat split; vm_compute; congruence.
Qed.

(** C6, amended: a position sample is emitted exactly when (minFix unset or
    F >= minFix) and (maxPrecision unset or P <= maxPrecision), where a
    threshold is unset when it is negative, and F and P are the operands
    converted to [int]: the carried fix and precision for "GPS5", the fields
    at index 8 and 7 cut to their whole part for "GPS9".  The conversion
    changes nothing for a carried value below 2^31 and for a whole-numbered
    field.  The condition depends on the two thresholds and the two operands
    only. *)
Theorem C6_filter_passes_spec (o : options) (f p : Z) :
  (filter_passes o f p = true <->
   passes_spec (threshold (min_fix o)) (threshold (max_precision o)) f p)
  /\ (forall o', min_fix o' = min_fix o -> max_precision o' = max_precision o ->
        filter_passes o' f p = filter_passes o f p)
  /\ (forall name b step c s,
        snd (gps5_sample o name b step c s) <> [] <->
        passes_spec (threshold (min_fix o)) (threshold (max_precision o))
          (to_int (fix_ s)) (to_int (precision s)))
  /\ (forall name b step c s,
        snd (gps9_sample o name b step c s) <> [] <->
        passes_spec (threshold (min_fix o)) (threshold (max_precision o))
          (trunc (read_double b c 8)) (trunc (read_double b c 7)))
  /\ (forall x, 0 <= x < 2147483648 -> to_int x = x)
  /\ (forall z, trunc (inject_Z z) = z).
Proof.
  split; [apply passes_spec_iff | split; [| split; [| split; [| split]]]].
  - intros o' E1 E2. unfold filter_passes. now rewrite E1, E2.
  - intros name b step c s. rewrite <- passes_spec_iff. unfold gps5_sample. cbn [snd].
    destruct (filter_passes o (to_int (fix_ s)) (to_int (precision s)));
      split; congruence.
  - intros name b step c s. rewrite <- passes_spec_iff. unfold gps9_sample.
    destruct (filter_passes o (trunc (read_double b c 8)) (trunc (read_double b c 7)));
      cbn [snd]; split; congruence.
  - intros x H. unfold to_int. rewrite Z.mod_small by lia. lia.
  - intros z. unfold trunc. cbn. apply Z.quot_1_r.
Qed.

(** The thresholds 3 and 100 on a carried fix 3 and precision 50, and on a
    "GPS9" sample of fix 3 and precision 1.5. *)
Lemma C6_filter_passes_spec_witness :
  let b := Samples.gps9_block 1 (Samples.gps9_values 7836 45296.5 1.5 3) in
  snd (gps5_sample Samples.strict_filter "f" (Samples.gps5_block 1 Samples.gps5_values)
         1 (mk_cursor 0 0) Samples.s0) <> []
  /\ snd (gps9_sample Samples.strict_filter "f" b 1 (mk_cursor 0 0) Samples.s0) <> []
  /\ to_int 3 = 3.
Proof.
  intros b.
  destruct (C6_filter_passes_spec Samples.strict_filter 3 50) as (_ & _ & H5 & H9 & HI & _).
  split; [| split].
  - apply H5. split; right; [exists 3 | exists 100]; split; vm_compute; congruence.
  - apply H9. split; right; [exists 3 | exists 100]; split; vm_compute; congruence.
  - apply HI. lia.
Defined.

(** ** Skipped blocks *)

Lemma process_block_not_decoded o name st fi b s :
  decoded b = false -> process_block o name st fi b s = (s, []).
Proof.
  unfold decoded, process_block. intros H.
  destruct (samples b =? 0); [reflexivity |].
  destruct (structsize b =? 0); [reflexivity |].
  destruct (malloc_ok b); [| reflexivity].
  cbn in H. now rewrite H.
Qed.

Lemma block_loop_skip o name st fi b rest s :
  process_block o name st fi b s = (s, []) ->
  block_loop o name st fi (b :: rest) s = block_loop o name st fi rest s.
Proof.
  intros H. cbn [block_loop]. rewrite H.
  now destruct (block_loop o name st fi rest s).
Qed.

Lemma payload_loop_skip o name ok tr st fi ir b rest ps s :
  (forall s', process_block o name st fi b s' = (s', [])) ->
  payload_loop o name (mk_payload ok tr st fi ir (b :: rest) :: ps) s
  = payload_loop o name (mk_payload ok tr st fi ir rest :: ps) s.
Proof.
  intros H. cbn [payload_loop payload_ok time_ret init_ret start finish blocks].
  destruct (negb ok); [reflexivity |].
  destruct (negb (is_ok (ret (set_ret tr s)))); [reflexivity |].
  destruct (negb (is_ok (ret (set_ret ir (set_ret tr s))))); [reflexivity |].
  now rewrite block_loop_skip by apply H.
Qed.

(** C8: when [malloc] fails for a block, the block emits nothing and leaves
    the whole state as it was, and the block loop and the payload loop go on
    with the blocks that follow it exactly as if the block were not there. *)
Theorem C8_malloc_failure_skips_block o name st fi b s
    (Hmalloc : malloc_ok b = false) :
  process_block o name st fi b s = (s, [])
  /\ (forall rest,
        block_loop o name st fi (b :: rest) s = block_loop o name st fi rest s)
  /\ (forall ok tr ir rest ps,
        payload_loop o name (mk_payload ok tr st fi ir (b :: rest) :: ps) s
        = payload_loop o name (mk_payload ok tr st fi ir rest :: ps) s).
Proof.
  assert (D : decoded b = false).
  { unfold decoded. rewrite Hmalloc. now rewrite andb_false_r. }
  split; [| split].
  - now apply process_block_not_decoded.
  - intros rest. apply block_loop_skip. now apply process_block_not_decoded.
  - intros ok tr ir rest ps. apply payload_loop_skip.
    intros s'. now apply process_block_not_decoded.
Qed.

(** A "GPS5" block whose allocation fails, followed by one that is emitted. *)
Lemma C8_malloc_failure_skips_block_witness :
  let b := mk_block GPS5 1 5 20 false GPMF_OK EmptyString [] [] Samples.gps5_values in
  let next := Samples.gps5_block 1 Samples.gps5_values in
  malloc_ok b = false
  /\ process_block Samples.no_filter "f" 0 1 b Samples.s0 = (Samples.s0, [])
  /\ block_loop Samples.no_filter "f" 0 1 [b; next] Samples.s0
     = block_loop Samples.no_filter "f" 0 1 [next] Samples.s0
  /\ snd (block_loop Samples.no_filter "f" 0 1 [b; next] Samples.s0) <> [].
Proof.
  intros b next.
  assert (H : malloc_ok b = false) by reflexivity.
  destruct (C8_malloc_failure_skips_block Samples.no_filter "f" 0 1 b Samples.s0 H)
    as (P & L & _).
  split; [exact H | split; [exact P | split; [exact (L [next]) |]]].
  rewrite (L [next]). vm_compute. discriminate.
Defined.

(** C9: a block with no samples or with a zero struct size emits nothing and
    leaves the clock, [fix], [precision], [file_finish] and the rest of the
    state as they were, and the block loop goes on with the next block. *)
Theorem C9_empty_block_skipped o name st fi b s
    (Hempty : samples b = 0 \/ structsize b = 0) :
  process_block o name st fi b s = (s, [])
  /\ (forall rest,
        block_loop o name st fi (b :: rest) s = block_loop o name st fi rest s)
  /\ (forall ok tr ir rest ps,
        payload_loop o name (mk_payload ok tr st fi ir (b :: rest) :: ps) s
        = payload_loop o name (mk_payload ok tr st fi ir rest :: ps) s).
Proof.
  assert (D : decoded b = false).
  { unfold decoded. destruct Hempty as [-> | ->]; cbn; [reflexivity |].
    now rewrite andb_false_r. }
  split; [| split].
  - now apply process_block_not_decoded.
  - intros rest. apply block_loop_skip. now apply process_block_not_decoded.
  - intros ok tr ir rest ps. apply payload_loop_skip.
    intros s'. now apply process_block_not_decoded.
Qed.

(** A "GPS5" block without samples, followed by one with a sample. *)
Lemma C9_empty_block_skipped_witness :
  let b := Samples.gps5_block 0 [] in
  let next := Samples.gps5_block 1 Samples.gps5_values in
  (samples b = 0 \/ structsize b = 0)
  /\ process_block Samples.no_filter "f" 0 1 b Samples.s0 = (Samples.s0, [])
  /\ block_loop Samples.no_filter "f" 0 1 [b; next] Samples.s0
     = block_loop Samples.no_filter "f" 0 1 [next] Samples.s0.
Proof.
  intros b next.
  assert (H : samples b = 0 \/ structsize b = 0) by (left; reflexivity).
  destruct (C9_empty_block_skipped Samples.no_filter "f" 0 1 b Samples.s0 H)
    as (P & L & _).
  split; [exact H | split; [exact P | exact (L [next])]].
Defined.

(** ** Fix and precision blocks *)

Lemma process_block_decoded o name st fi b s :
  decoded b = true ->
  process_block o name st fi b s =
  (let '(_, s', out) :=
     sample_loop o name b ((fi - st) / inject_Z (samples b))%Q (Z.to_nat (samples b))
       (mk_cursor 0 st) (set_file_finish fi s) in
   (s', out)).
Proof.
  unfold decoded, process_block. intros H.
  apply andb_prop in H as [H H4]. apply andb_prop in H as [H H3].
  apply andb_prop in H as [H1 H2].
  apply negb_true_iff in H1, H2. now rewrite H1, H2, H3, H4.
Qed.

Lemma sample_loop_gpsf o name b step n c s :
  key b = GPSF ->
  sample_loop o name b step (S n) c s = (c, set_fix (hd 0 (as_uint32 b)) s, []).
Proof.
  intros K. revert s. induction n as [| n IH]; intros s.
  - cbn [sample_loop]. unfold sample. now rewrite K.
  - change (sample_loop o name b step (S (S n)) c s)
      with (let '(c1, s1, out1) := sample o name b step c s in
            let '(c2, s2, out2) := sample_loop o name b step (S n) c1 s1 in
            (c2, s2, out1 ++ out2)).
    unfold sample at 1. rewrite K. rewrite IH. reflexivity.
Qed.

Lemma sample_loop_gpsp o name b step n c s :
  key b = GPSP ->
  sample_loop o name b step (S n) c s = (c, set_precision (hd 0 (as_uint16 b)) s, []).
Proof.
  intros K. revert s. induction n as [| n IH]; intros s.
  - cbn [sample_loop]. unfold sample. now rewrite K.
  - change (sample_loop o name b step (S (S n)) c s)
      with (let '(c1, s1, out1) := sample o name b step c s in
            let '(c2, s2, out2) := sample_loop o name b step (S n) c1 s1 in
            (c2, s2, out1 ++ out2)).
    unfold sample at 1. rewrite K. rewrite IH. reflexivity.
Qed.

(** C10: a decoded "GPSF" block sets [fix] to the first element of its
    buffer, and a decoded "GPSP" block sets [precision] to the first element of
    its buffer, for every sample count and whatever the later elements are;
    nothing is emitted and only [file_finish] changes besides. *)
Theorem C10_fix_precision_first_element o name st fi b s v later
    (Hsamples : 0 < samples b)
    (Hdecoded : decoded b = true) :
  (key b = GPSF -> as_uint32 b = v :: later ->
   process_block o name st fi b s = (set_fix v (set_file_finish fi s), []))
  /\ (key b = GPSP -> as_uint16 b = v :: later ->
      process_block o name st fi b s = (set_precision v (set_file_finish fi s), [])).
Proof.
  destruct (Z.to_nat (samples b)) as [| n] eqn:N; [lia |].
  split; intros K E; rewrite process_block_decoded by assumption; rewrite N.
  - rewrite sample_loop_gpsf by assumption. now rewrite E.
  - rewrite sample_loop_gpsp by assumption. now rewrite E.
Qed.

(** A "GPSF" block of three values and a "GPSP" block of two. *)
Lemma C10_fix_precision_first_element_witness :
  let bf := Samples.gpsf_block [2; 3; 0] in
  let bp := Samples.gpsp_block [120; 9999] in
  0 < samples bf /\ decoded bf = true
  /\ process_block Samples.no_filter "f" 0 1 bf Samples.s0
     = (set_fix 2 (set_file_finish 1 Samples.s0), [])
  /\ 0 < samples bp /\ decoded bp = true
  /\ process_block Samples.no_filter "f" 0 1 bp Samples.s0
     = (set_precision 120 (set_file_finish 1 Samples.s0), []).
Proof.
  intros bf bp.
  assert (H1 : 0 < samples bf) by reflexivity.
  assert (H2 : decoded bf = true) by reflexivity.
  assert (H3 : 0 < samples bp) by reflexivity.
  assert (H4 : decoded bp = true) by reflexivity.
  split; [exact H1 | split; [exact H2 | split]].
  - exact (proj1 (C10_fix_precision_first_element Samples.no_filter "f" 0 1 bf
                    Samples.s0 2 [3; 0] H1 H2) eq_refl eq_refl).
  - split; [exact H3 | split; [exact H4 |]].
    exact (proj2 (C10_fix_precision_first_element Samples.no_filter "f" 0 1 bp
                    Samples.s0 120 [9999] H3 H4) eq_refl eq_refl).
Defined.

(** ** The clock advance *)

Lemma Qle_bool_false (x y : Q) : Qle_bool x y = false <-> (y < x)%Q.
Proof.
  rewrite <- not_true_iff_false, Qle_bool_iff. split.
  - apply Qnot_le_lt.
  - apply Qlt_not_le.
Qed.

(** Both arms of the single conditional of [advance]. *)
Lemma advance_cases (step : Q) (g : gpsu_t) :
  ((milliseconds g + step * 1000 < 1000)%Q
   /\ advance step g = mk_gpsu (time g) (milliseconds g + step * 1000)%Q)
  \/ ((1000 <= milliseconds g + step * 1000)%Q
      /\ advance step g = mk_gpsu (time g + 1) (milliseconds g + step * 1000 - 1000)%Q).
Proof.
  unfold advance.
  destruct (Qle_bool 1000 (milliseconds g + step * 1000)) eqn:E.
  - right. split; [now apply Qle_bool_iff | reflexivity].
  - left. split; [now apply Qle_bool_false | reflexivity].
Qed.

(** The bounds on the fraction and on the step are strict: so stated, the
    lemma also holds when the sum is rounded to double precision (the rounded
    sum of two doubles below 1000 is at most 2000 - 2^-42, and subtracting 1000
    from a double between 1000 and 2000 is exact), which it does not with a
    step of exactly 1000 ms. *)
Lemma advance_in_range (step : Q) (g : gpsu_t) :
  (0 <= milliseconds g /\ milliseconds g < 1000)%Q ->
  (0 <= step * 1000 /\ step * 1000 < 1000)%Q ->
  (0 <= milliseconds (advance step g) /\ milliseconds (advance step g) < 1000)%Q.
Proof.
  intros [L U] [L' U'].
  destruct (advance_cases step g) as [[C ->] | [C ->]]; cbn [milliseconds]; split; lra.
Qed.

(** With steps below one second, the fraction stays in [0,1000) through all
    the samples of a "GPS5" block. *)
Lemma sample_loop_gps5_millis o name b step n :
  key b = GPS5 ->
  (0 <= step * 1000 /\ step * 1000 < 1000)%Q ->
  forall c s,
    (0 <= milliseconds (gpsu s) /\ milliseconds (gpsu s) < 1000)%Q ->
    (0 <= milliseconds (gpsu (snd (fst (sample_loop o name b step n c s))))
     /\ milliseconds (gpsu (snd (fst (sample_loop o name b step n c s)))) < 1000)%Q.
Proof.
  intros K Hstep. induction n as [| n IH]; intros c s H; [exact H |].
  cbn [sample_loop].
  assert (H1 : (0 <= milliseconds (gpsu (snd (fst (sample o name b step c s))))
                /\ milliseconds (gpsu (snd (fst (sample o name b step c s)))) < 1000)%Q).
  { unfold sample. rewrite K. destruct (use_gps9 s); [exact H |].
    unfold gps5_sample. cbn [fst snd gpsu set_gpsu].
    now apply advance_in_range. }
  destruct (sample o name b step c s) as [[c1 s1] out1]. cbn [fst snd] in H1.
  specialize (IH c1 s1 H1).
  destruct (sample_loop o name b step n c1 s1) as [[c2 s2] out2]. exact IH.
Qed.

(** C1, the claim as stated fails: a step of 2500 ms from 0 ms carries once
    and leaves 1500 ms; so does a "GPS5" block of one sample in a payload
    [0, 2.5). *)
Lemma C1_large_step_counterexample :
  (0 <= 2.5 * 1000)%Q
  /\ time (advance 2.5 Samples.clock0) = 1
  /\ (milliseconds (advance 2.5 Samples.clock0) == 1500)%Q
  /\ ~ (milliseconds (advance 2.5 Samples.clock0) < 1000)%Q
  /\ gpsu (fst (process_block Samples.no_filter "f" 0 2.5
                  (Samples.gps5_block 1 Samples.gps5_values) Samples.s0))
     = advance 2.5 Samples.clock0.
Proof.
  repeat split; vm_compute; congruence.
Qed.

(** C1, amended: on a clock whose millisecond fraction is in [0,1000), an
    [advance] by a non-negative step below one second (less than 1000 ms)
    leaves the fraction in [0,1000) and the seconds unchanged or one more.
    Whatever the step, the seconds grow by at most one: the carry is a single
    conditional and is never repeated.  The bounds are strict, so that the
    statement holds of the program's rounded sums as well as of exact ones. *)
Theorem C1_advance_single_carry (g : gpsu_t) (step : Q)
    (Hms : (0 <= milliseconds g /\ milliseconds g < 1000)%Q)
    (Hstep : (0 <= step * 1000 /\ step * 1000 < 1000)%Q) :
  (0 <= milliseconds (advance step g) /\ milliseconds (advance step g) < 1000)%Q
  /\ (time (advance step g) = time g \/ time (advance step g) = time g + 1)
  /\ (forall step' g',
        time (advance step' g') = time g' \/ time (advance step' g') = time g' + 1).
Proof.
  split; [now apply advance_in_range | split].
  - destruct (advance_cases step g) as [[_ ->] | [_ ->]]; cbn [time]; [now left | now right].
  - intros step' g'.
    destruct (advance_cases step' g') as [[_ ->] | [_ ->]]; cbn [time];
      [now left | now right].
Qed.

(** A quarter-second step from 900 ms: one carry, 150 ms left. *)
Lemma C1_advance_single_carry_witness :
  (0 <= milliseconds (mk_gpsu 7 900) /\ milliseconds (mk_gpsu 7 900) < 1000)%Q
  /\ (0 <= 0.25 * 1000 /\ 0.25 * 1000 < 1000)%Q
  /\ (0 <= milliseconds (advance 0.25 (mk_gpsu 7 900))
      /\ milliseconds (advance 0.25 (mk_gpsu 7 900)) < 1000)%Q
  /\ (milliseconds (advance 0.25 (mk_gpsu 7 900)) == 150)%Q
  /\ time (advance 0.25 (mk_gpsu 7 900)) = 8.
Proof.
  assert (H1 : (0 <= milliseconds (mk_gpsu 7 900) /\ milliseconds (mk_gpsu 7 900) < 1000)%Q)
    by (split; vm_compute; congruence).
  assert (H2 : (0 <= 0.25 * 1000 /\ 0.25 * 1000 < 1000)%Q)
    by (split; vm_compute; congruence).
  split; [exact H1 | split; [exact H2 | split]].
  - exact (proj1 (C1_advance_single_carry (mk_gpsu 7 900) 0.25 H1 H2)).
  - split; vm_compute; reflexivity.
Defined.

(** ** The schema flag *)

Lemma sample_use_gps9 o name b step c s :
  use_gps9 s = true -> use_gps9 (snd (fst (sample o name b step c s))) = true.
Proof.
  intros H. unfold sample, gps5_sample, gps9_sample.
  destruct (key b); try exact H.
  - now rewrite H.
  - destruct (filter_passes o _ _); [destruct (Qeq_bool 0 (now c)) |]; reflexivity.
Qed.

Lemma sample_loop_use_gps9 o name b step n c s :
  use_gps9 s = true -> use_gps9 (snd (fst (sample_loop o name b step n c s))) = true.
Proof.
  revert c s. induction n as [| n IH]; intros c s H; [exact H |].
  cbn [sample_loop].
  pose proof (sample_use_gps9 o name b step c s H) as H1.
  destruct (sample o name b step c s) as [[c1 s1] out1]. cbn [fst snd] in H1.
  specialize (IH c1 s1 H1).
  destruct (sample_loop o name b step n c1 s1) as [[c2 s2] out2]. exact IH.
Qed.

Lemma process_block_use_gps9 o name st fi b s :
  use_gps9 s = true -> use_gps9 (fst (process_block o name st fi b s)) = true.
Proof.
  intros H. destruct (decoded b) eqn:D.
  - rewrite process_block_decoded by assumption.
    pose proof (sample_loop_use_gps9 o name b ((fi - st) / inject_Z (samples b))%Q
                  (Z.to_nat (samples b)) (mk_cursor 0 st) (set_file_finish fi s) H) as H1.
    destruct (sample_loop _ _ _ _ _ _ _) as [[c1 s1] out1]. exact H1.
  - now rewrite process_block_not_decoded.
Qed.

Lemma block_loop_use_gps9 o name st fi bs s :
  use_gps9 s = true -> use_gps9 (fst (block_loop o name st fi bs s)) = true.
Proof.
  revert s. induction bs as [| b rest IH]; intros s H; [exact H |].
  cbn [block_loop].
  pose proof (process_block_use_gps9 o name st fi b s H) as H1.
  destruct (process_block o name st fi b s) as [s1 out1]. cbn [fst] in H1.
  specialize (IH s1 H1).
  destruct (block_loop o name st fi rest s1) as [s2 out2]. exact IH.
Qed.

Lemma payload_loop_use_gps9 o name ps s :
  use_gps9 s = true -> use_gps9 (fst (payload_loop o name ps s)) = true.
Proof.
  revert s. induction ps as [| p rest IH]; intros s H; [exact H |].
  cbn [payload_loop].
  destruct (negb (payload_ok p)); [exact H |].
  destruct (negb (is_ok (ret (set_ret (time_ret p) s)))); [exact H |].
  destruct (negb (is_ok (ret (set_ret (init_ret p) (set_ret (time_ret p) s))))); [exact H |].
  pose proof (block_loop_use_gps9 o name (start p) (finish p) (blocks p)
                (set_ret (init_ret p) (set_ret (time_ret p) s)) H) as H1.
  destruct (block_loop _ _ _ _ _ _) as [s3 out1]. cbn [fst] in H1.
  specialize (IH s3 H1).
  destruct (payload_loop o name rest s3) as [s4 out2]. exact IH.
Qed.

Lemma process_file_use_gps9 o f s :
  use_gps9 s = true -> use_gps9 (snd (fst (process_file o f s))) = true.
Proof.
  intros H. unfold process_file.
  pose proof (payload_loop_use_gps9 o (mp4filename f) (payloads f) (set_file_finish 0 s) H) as H1.
  destruct (payload_loop _ _ _ _) as [s1 out]. cbn [fst] in H1.
  destruct (is_ok (ret s1)); exact H1.
Qed.

Lemma file_loop_use_gps9 o first fs s :
  use_gps9 s = true -> use_gps9 (snd (fst (file_loop o first fs s))) = true.
Proof.
  revert first s. induction fs as [| f rest IH]; intros first s H; [exact H |].
  cbn [file_loop].
  destruct (negb (mp4handle_ok f)); [exact H |].
  destruct (Qle_bool (metadataduration f) 0); [exact H |].
  pose proof (process_file_use_gps9 o f s H) as H1.
  destruct (process_file o f s) as [[go_on s1] out]. cbn [fst snd] in H1.
  destruct go_on; [| exact H1].
  specialize (IH false s1 H1).
  destruct (file_loop o false rest s1) as [[e s2] out2]. exact IH.
Qed.

(** With the flag set, the sample loop of a "GPS5" block does nothing. *)
Lemma sample_loop_gps5_ignored o name b step n c s :
  key b = GPS5 -> use_gps9 s = true ->
  sample_loop o name b step n c s = (c, s, []).
Proof.
  intros K H. induction n as [| n IH]; [reflexivity |].
  cbn [sample_loop]. unfold sample. rewrite K, H, IH. reflexivity.
Qed.

(** One sample of a "GPS9" block sets the flag. *)
Lemma sample_gps9_sets_flag o name b step c s :
  key b = GPS9 -> use_gps9 (snd (fst (sample o name b step c s))) = true.
Proof.
  intros K. unfold sample, gps9_sample. rewrite K.
  destruct (filter_passes o _ _); [destruct (Qeq_bool 0 (now c)) |]; reflexivity.
Qed.

(** C2, the claim as stated fails: a "GPS5" file emits its row when it is
    run alone, and nothing when it is run after a "GPS9" file. *)
Lemma C2_flag_outlives_file_counterexample :
  (exists r, snd (main Samples.no_filter [Samples.file_gps5] 3 50 Samples.clock0)
             = [header Samples.no_filter; Row r])
  /\ snd (main Samples.no_filter [Samples.file_gps9; Samples.file_gps5] 3 50 Samples.clock0)
     = snd (main Samples.no_filter [Samples.file_gps9] 3 50 Samples.clock0).
Proof.
  split.
  - eexists. vm_compute. reflexivity.
  - vm_compute. reflexivity.
Qed.

(** C2, amended: [use_gps9] belongs to the run.  A decoded "GPS9" block with
    a sample sets it; once set it stays set through every block, payload and
    file that follows; and while it is set a "GPS5" block emits nothing and
    changes no more than [file_finish]. *)
Theorem C2_use_gps9_sticky (o : options) (s : state)
    (Hflag : use_gps9 s = true) :
  (forall first fs, use_gps9 (snd (fst (file_loop o first fs s))) = true)
  /\ (forall name st fi b, key b = GPS5 ->
        process_block o name st fi b s
        = (if decoded b then set_file_finish fi s else s, []))
  /\ (forall name st fi b s', key b = GPS9 -> decoded b = true -> 0 < samples b ->
        use_gps9 (fst (process_block o name st fi b s')) = true).
Proof.
  split; [| split].
  - intros first fs. now apply file_loop_use_gps9.
  - intros name st fi b K. destruct (decoded b) eqn:D.
    + rewrite process_block_decoded by assumption.
      now rewrite sample_loop_gps5_ignored.
    + now apply process_block_not_decoded.
  - intros name st fi b s' K D N.
    rewrite process_block_decoded by assumption.
    destruct (Z.to_nat (samples b)) as [| n] eqn:E; [lia |].
    cbn [sample_loop].
    pose proof (sample_gps9_sets_flag o name b ((fi - st) / inject_Z (samples b))%Q
                  (mk_cursor 0 st) (set_file_finish fi s') K) as H1.
    destruct (sample _ _ _ _ _ _) as [[c1 s1] out1]. cbn [fst snd] in H1.
    pose proof (sample_loop_use_gps9 o name b ((fi - st) / inject_Z (samples b))%Q
                  n c1 s1 H1) as H2.
    destruct (sample_loop _ _ _ _ _ _ _) as [[c2 s2] out2]. exact H2.
Qed.

(** The initial state with the flag set. *)
Lemma C2_use_gps9_sticky_witness :
  use_gps9 (set_use_gps9 true Samples.s0) = true
  /\ (forall first fs,
        use_gps9 (snd (fst (file_loop Samples.no_filter first fs
                              (set_use_gps9 true Samples.s0)))) = true)
  /\ (forall name st fi b, key b = GPS5 ->
        process_block Samples.no_filter name st fi b (set_use_gps9 true Samples.s0)
        = (if decoded b then set_file_finish fi (set_use_gps9 true Samples.s0)
           else set_use_gps9 true Samples.s0, []))
  /\ (forall name st fi b s', key b = GPS9 -> decoded b = true -> 0 < samples b ->
        use_gps9 (fst (process_block Samples.no_filter name st fi b s')) = true).
Proof.
  split; [reflexivity |].
  exact (C2_use_gps9_sticky Samples.no_filter (set_use_gps9 true Samples.s0) eq_refl).
Defined.

(** ** Seeding the clock from a "GPS9" sample *)

Lemma trunc_inject_Z (z : Z) : trunc (inject_Z z) = z.
Proof. unfold trunc. cbn. apply Z.quot_1_r. Qed.

Lemma trunc_comp (x y : Q) : (x == y)%Q -> trunc x = trunc y.
Proof.
  unfold Qeq, trunc. intros H.
  rewrite <- (Z.quot_mul_cancel_r (Qnum x) (Zpos (Qden x)) (Zpos (Qden y))) by lia.
  rewrite H.
  rewrite (Z.mul_comm (Zpos (Qden x)) (Zpos (Qden y))).
  apply Z.quot_mul_cancel_r; lia.
Qed.

(** [(time_t)(x - fmod(x, 1.0))] is the whole part of [x]. *)
Lemma trunc_minus_fmod1 (x : Q) : trunc (x - fmod1 x)%Q = trunc x.
Proof.
  transitivity (trunc (inject_Z (trunc x))); [| apply trunc_inject_Z].
  apply trunc_comp. unfold fmod1. ring.
Qed.

(** The seed in terms of the 2000-01-01 epoch. *)
Lemma gps9_seed_formula (b : block) (c : cursor) :
  gps9_seed b c =
  mk_gpsu
    (LibC.timegm (LibC.mk_tm 0 0 0 1 0 100)
     + trunc (read_double b c 5) * 86400 + trunc (read_double b c 6))
    (inject_Z (trunc (1000 * fmod1 (read_double b c 6))%Q)).
Proof.
  unfold gps9_seed. rewrite trunc_minus_fmod1. f_equal.
  change gps9_epoch with (LibC.timegm (LibC.mk_tm 0 0 0 1 0 100) - 86400). lia.
Qed.

Lemma Qeq_bool_false (x y : Q) : Qeq_bool x y = false <-> ~ (x == y)%Q.
Proof.
  rewrite <- not_true_iff_false, Qeq_bool_iff. reflexivity.
Qed.

(** The clock after one "GPS9" sample, in each of the three cases. *)
Lemma gps9_sample_clock o name b step c s :
  gpsu (snd (fst (gps9_sample o name b step c s))) =
  advance step
    (if filter_passes o (trunc (read_double b c 8)) (trunc (read_double b c 7))
        && Qeq_bool 0 (now c)
     then gps9_seed b c else gpsu s).
Proof.
  unfold gps9_sample.
  destruct (filter_passes o _ _); [destruct (Qeq_bool 0 (now c)) |]; reflexivity.
Qed.

(** C3, the claim as stated fails: in a payload starting at 0 with two "GPS9"
    blocks, the first sample of the second block seeds the clock again from
    its own day and seconds fields (day 7837, one day after the first
    block's), although it is not the first sample of the file. *)
Lemma C3_second_block_reseeds_counterexample :
  let b1 := Samples.gps9_block 1 (Samples.gps9_values 7836 45296.5 1.5 3) in
  let b2 := Samples.gps9_block 1 (Samples.gps9_values 7837 45296.5 1.5 3) in
  let after1 := fst (block_loop Samples.no_filter "f" 0 1 [b1] Samples.s0) in
  let after2 := fst (block_loop Samples.no_filter "f" 0 1 [b1; b2] Samples.s0) in
  time (gpsu after1) = 1623760497
  /\ time (gpsu after2) = 1623760497 + 86400
  /\ gpsu after2 <> advance 1 (gpsu after1).
Proof.
  repeat split; vm_compute; congruence.
Qed.

(** C3, amended: a "GPS9" sample that is emitted while the payload-local time
    [now] is 0 sets the clock from its own fields, seconds = the 2000-01-01
    epoch + days (index 5) * 86400 + the whole seconds of index 6, and
    milliseconds = the fractional part of index 6; the advance of the sample
    follows.  A sample processed at any other [now] only advances the clock. *)
Theorem C3_gps9_seed_at_time_zero o name b step c s :
  ((now c == 0)%Q ->
   filter_passes o (trunc (read_double b c 8)) (trunc (read_double b c 7)) = true ->
   gpsu (snd (fst (gps9_sample o name b step c s))) =
   advance step
     (mk_gpsu
        (LibC.timegm (LibC.mk_tm 0 0 0 1 0 100)
         + trunc (read_double b c 5) * 86400 + trunc (read_double b c 6))
        (inject_Z (trunc (1000 * fmod1 (read_double b c 6))%Q))))
  /\ (~ (now c == 0)%Q ->
      gpsu (snd (fst (gps9_sample o name b step c s))) = advance step (gpsu s)).
Proof.
  rewrite gps9_sample_clock. split.
  - intros Z F. rewrite F. cbn [andb].
    assert (E : Qeq_bool 0 (now c) = true) by (apply Qeq_bool_iff; now symmetry).
    rewrite E. now rewrite gps9_seed_formula.
  - intros NZ.
    assert (E : Qeq_bool 0 (now c) = false).
    { apply Qeq_bool_false. intros H. apply NZ. now symmetry. }
    rewrite E. now rewrite andb_false_r.
Qed.

(** A block of two samples in a payload [0, 1): the first seeds the clock,
    the second only advances it. *)
Lemma C3_gps9_seed_at_time_zero_witness :
  let b := Samples.gps9_block 2 (Samples.gps9_values 7836 45296.5 1.5 3
                                 ++ Samples.gps9_values 7836 45297 1.5 3) in
  (now (mk_cursor 0 0) == 0)%Q
  /\ filter_passes Samples.strict_filter
       (trunc (read_double b (mk_cursor 0 0) 8)) (trunc (read_double b (mk_cursor 0 0) 7)) = true
  /\ gpsu (snd (fst (gps9_sample Samples.strict_filter "f" b 0.5 (mk_cursor 0 0) Samples.s0)))
     = advance 0.5 (mk_gpsu (946684800 + 7836 * 86400 + 45296) (inject_Z 500))
  /\ ~ (now (mk_cursor 9 0.5) == 0)%Q
  /\ gpsu (snd (fst (gps9_sample Samples.strict_filter "f" b 0.5 (mk_cursor 9 0.5) Samples.s0)))
     = advance 0.5 (gpsu Samples.s0).
Proof.
  intros b.
  assert (H1 : (now (mk_cursor 0 0) == 0)%Q) by reflexivity.
  assert (H2 : filter_passes Samples.strict_filter
                 (trunc (read_double b (mk_cursor 0 0) 8))
                 (trunc (read_double b (mk_cursor 0 0) 7)) = true) by reflexivity.
  assert (H3 : ~ (now (mk_cursor 9 0.5) == 0)%Q) by (vm_compute; discriminate).
  split; [exact H1 | split; [exact H2 | split; [| split; [exact H3 |]]]].
  - exact (proj1 (C3_gps9_seed_at_time_zero Samples.strict_filter "f" b 0.5
                    (mk_cursor 0 0) Samples.s0) H1 H2).
  - exact (proj2 (C3_gps9_seed_at_time_zero Samples.strict_filter "f" b 0.5
                    (mk_cursor 9 0.5) Samples.s0) H3).
Defined.

(** ** The clock and the filter outcome *)

(** The "GPS5" branch leaves the same cursor and state whatever the filter
    decides. *)
Lemma gps5_sample_filter_independent o o' name name' b step c s :
  fst (gps5_sample o name b step c s) = fst (gps5_sample o' name' b step c s).
Proof. reflexivity. Qed.

(** So does the "GPS9" branch away from local time 0. *)
Lemma gps9_sample_filter_independent o o' name name' b step c s :
  ~ (now c == 0)%Q ->
  fst (gps9_sample o name b step c s) = fst (gps9_sample o' name' b step c s).
Proof.
  intros NZ.
  assert (E : Qeq_bool 0 (now c) = false).
  { apply Qeq_bool_false. intros H. apply NZ. now symmetry. }
  unfold gps9_sample. rewrite E.
  destruct (filter_passes o _ _), (filter_passes o' _ _); reflexivity.
Qed.

(** C4, on the code: the first "GPS9" sample of a payload starting at 0, with
    fix 0.  Without thresholds it is emitted and the clock is seeded from it
    (2021-06-15T12:34:56 plus the one-second step); with [--min_fix=3] it is
    rejected and the clock is only advanced from its previous value. *)
Theorem C4_gps9_clock_depends_on_filter :
  let b := Samples.gps9_block 1 (Samples.gps9_values 7836 45296.5 1.5 0) in
  let accepted := gps9_sample Samples.no_filter "f" b 1 (mk_cursor 0 0) Samples.s0 in
  let rejected := gps9_sample Samples.strict_filter "f" b 1 (mk_cursor 0 0) Samples.s0 in
  snd accepted <> []
  /\ snd rejected = []
  /\ time (gpsu (snd (fst accepted))) = 1623760497
  /\ time (gpsu (snd (fst rejected))) = time (gpsu Samples.s0) + 1
  /\ gpsu (snd (fst accepted)) <> gpsu (snd (fst rejected)).
Proof.
  repeat split; vm_compute; congruence.
Qed.

(** ** The time base across files *)

(** One sample: [file_start] and [file_finish] stay, [now] moves by nothing or
    by [step], and a row carries [(file_start + now) * 1000]. *)
Lemma sample_time o name b step c s :
  let '(c', s', out) := sample o name b step c s in
  file_start s' = file_start s
  /\ file_finish s' = file_finish s
  /\ (now c' = now c \/ now c' = (now c + step)%Q)
  /\ (forall r, In r out -> row_cts r = ((file_start s + now c) * 1000)%Q).
Proof.
  assert (R : forall (x : Q) (l : list row),
             (l = [] \/ exists r0, l = [r0] /\ row_cts r0 = x) ->
             forall r, In r l -> row_cts r = x).
  { intros x l [-> | (r0 & -> & E)] r H; cbn [In] in H; [tauto |].
    destruct H as [<- | []]. exact E. }
  unfold sample, gps5_sample, gps9_sample.
  destruct (key b).
  1, 2, 3, 6: (repeat split; auto; apply R; now left).
  - destruct (use_gps9 s).
    + repeat split; auto. apply R. now left.
    + destruct (filter_passes o _ _); (repeat split; auto); apply R;
        [right; eexists; split; reflexivity | now left].
  - destruct (filter_passes o _ _); [destruct (Qeq_bool 0 (now c)) |];
      (repeat split; auto); apply R;
      solve [right; eexists; split; reflexivity | now left].
Qed.

Lemma inject_Z_succ (n : nat) :
  (inject_Z (Z.of_nat (S n)) == inject_Z (Z.of_nat n) + 1)%Q.
Proof.
  rewrite Nat2Z.inj_succ. unfold Z.succ. rewrite inject_Z_plus. reflexivity.
Qed.

Lemma inject_Z_nat_nonneg (n : nat) : (0 <= inject_Z (Z.of_nat n))%Q.
Proof.
  change 0%Q with (inject_Z 0). rewrite <- Zle_Qle. lia.
Qed.

(** The sample loop: rows lie between the local time at entry and that time
    plus [n - 1] steps. *)
Lemma sample_loop_time o name b step (Hstep : (0 <= step)%Q) n :
  forall c s hi,
    (now c + (inject_Z (Z.of_nat n) - 1) * step <= hi)%Q ->
    let '(c', s', out) := sample_loop o name b step n c s in
    file_start s' = file_start s
    /\ file_finish s' = file_finish s
    /\ (forall r, In r out ->
          ((file_start s + now c) * 1000 <= row_cts r
           /\ row_cts r <= (file_start s + hi) * 1000)%Q).
Proof.
  induction n as [| n IH]; intros c s hi Hhi.
  - cbn [sample_loop]. split; [reflexivity | split; [reflexivity | intros r []]].
  - cbn [sample_loop].
    pose proof (sample_time o name b step c s) as H1.
    destruct (sample o name b step c s) as [[c1 s1] out1].
    destruct H1 as (F1 & G1 & N1 & R1).
    rewrite inject_Z_succ in Hhi.
    pose proof (inject_Z_nat_nonneg n) as Nn.
    assert (P : (0 <= inject_Z (Z.of_nat n) * step)%Q) by now apply Qmult_le_0_compat.
    assert (Hc1 : (now c <= now c1 /\ now c1 <= now c + step)%Q).
    { destruct N1 as [-> | ->]; split; lra. }
    assert (Hhi1 : (now c1 + (inject_Z (Z.of_nat n) - 1) * step <= hi)%Q) by lra.
    specialize (IH c1 s1 hi Hhi1).
    destruct (sample_loop o name b step n c1 s1) as [[c2 s2] out2].
    destruct IH as (F2 & G2 & R2).
    split; [congruence | split; [congruence |]].
    intros r Hr. apply in_app_or in Hr as [Hr | Hr].
    + rewrite (R1 r Hr). split; lra.
    + destruct (R2 r Hr) as [L U]. rewrite F1 in L, U. split; lra.
Qed.

(** What the loops do to [file_start] and [file_finish]. *)
Lemma sample_loop_frame o name b step n :
  forall c s,
    file_start (snd (fst (sample_loop o name b step n c s))) = file_start s
    /\ file_finish (snd (fst (sample_loop o name b step n c s))) = file_finish s.
Proof.
  induction n as [| n IH]; intros c s; [split; reflexivity |].
  cbn [sample_loop].
  pose proof (sample_time o name b step c s) as H1.
  destruct (sample o name b step c s) as [[c1 s1] out1].
  destruct H1 as (F1 & G1 & _).
  specialize (IH c1 s1).
  destruct (sample_loop o name b step n c1 s1) as [[c2 s2] out2].
  cbn [fst snd] in *. destruct IH as [F2 G2]. split; congruence.
Qed.

Lemma process_block_frame o name st fi b s :
  file_start (fst (process_block o name st fi b s)) = file_start s
  /\ file_finish (fst (process_block o name st fi b s))
     = (if decoded b then fi else file_finish s)
  /\ (decoded b = false -> snd (process_block o name st fi b s) = []).
Proof.
  destruct (decoded b) eqn:D.
  - rewrite process_block_decoded by assumption.
    pose proof (sample_loop_frame o name b ((fi - st) / inject_Z (samples b))%Q
                  (Z.to_nat (samples b)) (mk_cursor 0 st) (set_file_finish fi s)) as H.
    destruct (sample_loop _ _ _ _ _ _ _) as [[c' s'] out].
    cbn [fst snd] in *. destruct H as [F G].
    split; [exact F | split; [exact G | discriminate]].
  - rewrite process_block_not_decoded by assumption.
    split; [reflexivity | split; reflexivity].
Qed.

Lemma block_loop_frame o name st fi bs :
  forall s,
    file_start (fst (block_loop o name st fi bs s)) = file_start s
    /\ file_finish (fst (block_loop o name st fi bs s))
       = (if existsb decoded bs then fi else file_finish s)
    /\ (existsb decoded bs = false -> snd (block_loop o name st fi bs s) = []).
Proof.
  induction bs as [| b rest IH]; intros s.
  - split; [reflexivity | split; reflexivity].
  - cbn [block_loop existsb].
    pose proof (process_block_frame o name st fi b s) as H1.
    destruct (process_block o name st fi b s) as [s1 out1].
    cbn [fst snd] in H1. destruct H1 as (F1 & G1 & E1).
    specialize (IH s1).
    destruct (block_loop o name st fi rest s1) as [s2 out2].
    cbn [fst snd] in *. destruct IH as (F2 & G2 & E2).
    split; [congruence |]. split.
    + rewrite G2, G1. destruct (decoded b), (existsb decoded rest); reflexivity.
    + intros H. apply orb_false_iff in H as [Hb Hr].
      now rewrite (E1 Hb), (E2 Hr).
Qed.

(** The running end time of a file is [file_end], and its time base stays. *)
Lemma payload_loop_frame o name ps :
  forall s,
    file_start (fst (payload_loop o name ps s)) = file_start s
    /\ file_finish (fst (payload_loop o name ps s)) = file_end (file_finish s) ps.
Proof.
  induction ps as [| p rest IH]; intros s; [split; reflexivity |].
  cbn [payload_loop file_end]. unfold delivered.
  destruct (payload_ok p); cbn [negb andb]; [| split; reflexivity].
  cbn [ret set_ret].
  destruct (time_ret p); cbn [is_ok negb andb]; try (split; reflexivity).
  destruct (init_ret p); cbn [is_ok negb]; try (split; reflexivity).
  pose proof (block_loop_frame o name (start p) (finish p) (blocks p)
                (set_ret GPMF_OK (set_ret GPMF_OK s))) as H1.
  destruct (block_loop _ _ _ _ _ _) as [s3 out1].
  cbn [fst snd] in H1. destruct H1 as (F1 & G1 & _).
  cbn [file_start file_finish set_ret] in F1, G1.
  specialize (IH s3).
  destruct (payload_loop o name rest s3) as [s4 out2].
  cbn [fst] in *. destruct IH as [F2 G2].
  split; [congruence |]. rewrite G2, G1. reflexivity.
Qed.

(** A block: its rows lie inside the payload's interval. *)
Lemma process_block_time o name st fi b s :
  (st <= fi)%Q ->
  forall r, In r (snd (process_block o name st fi b s)) ->
    ((file_start s + st) * 1000 <= row_cts r
     /\ row_cts r <= (file_start s + fi) * 1000)%Q.
Proof.
  intros Hsf. destruct (decoded b) eqn:D.
  - rewrite process_block_decoded by assumption.
    set (step := ((fi - st) / inject_Z (samples b))%Q).
    destruct (Z.to_nat (samples b)) as [| n] eqn:N.
    + cbn [sample_loop snd]. intros r [].
    + assert (Hpos : 0 < samples b) by lia.
      assert (HposQ : (0 < inject_Z (samples b))%Q).
      { change 0%Q with (inject_Z 0). now rewrite <- Zlt_Qlt. }
      assert (Hstep : (0 <= step)%Q).
      { unfold step. apply Qle_shift_div_l; [exact HposQ | lra]. }
      assert (Hmul : (inject_Z (samples b) * step == fi - st)%Q).
      { unfold step. apply Qmult_div_r. lra. }
      assert (HN : inject_Z (Z.of_nat (S n)) = inject_Z (samples b)).
      { rewrite <- N. rewrite Z2Nat.id by lia. reflexivity. }
      pose proof (sample_loop_time o name b step Hstep (S n)
                    (mk_cursor 0 st) (set_file_finish fi s) fi) as H.
      cbn [now] in H. rewrite HN in H.
      assert (Hhi : (st + (inject_Z (samples b) - 1) * step <= fi)%Q) by lra.
      specialize (H Hhi).
      destruct (sample_loop o name b step (S n) _ _) as [[c' s'] out].
      destruct H as (_ & _ & R). exact R.
  - rewrite process_block_not_decoded by assumption. intros r [].
Qed.

Lemma block_loop_time o name st fi bs :
  (st <= fi)%Q ->
  forall s r, In r (snd (block_loop o name st fi bs s)) ->
    ((file_start s + st) * 1000 <= row_cts r
     /\ row_cts r <= (file_start s + fi) * 1000)%Q.
Proof.
  intros Hsf. induction bs as [| b rest IH]; intros s r.
  - intros [].
  - cbn [block_loop].
    pose proof (process_block_time o name st fi b s Hsf r) as R1.
    pose proof (process_block_frame o name st fi b s) as (F1 & _).
    destruct (process_block o name st fi b s) as [s1 out1].
    specialize (IH s1 r).
    destruct (block_loop o name st fi rest s1) as [s2 out2].
    cbn [fst snd] in *. intros Hr. apply in_app_or in Hr as [Hr | Hr].
    + now apply R1.
    + rewrite <- F1. now apply IH.
Qed.

Lemma times_ok_cons bound p rest :
  times_ok bound (p :: rest) = true <->
  (0 <= start p)%Q /\ (start p <= finish p)%Q /\ (bound <= finish p)%Q
  /\ times_ok (finish p) rest = true.
Proof.
  cbn [times_ok]. rewrite !andb_true_iff, !Qle_bool_iff. tauto.
Qed.

Lemma file_end_ge ps : forall bound acc,
  times_ok bound ps = true -> (acc <= bound)%Q -> (acc <= file_end acc ps)%Q.
Proof.
  induction ps as [| p rest IH]; intros bound acc H L; cbn [file_end]; [lra |].
  apply times_ok_cons in H as (H1 & H2 & H3 & H4).
  destruct (delivered p); [| lra].
  destruct (existsb decoded (blocks p)).
  - specialize (IH (finish p) (finish p) H4). lra.
  - apply (IH (finish p) acc H4). lra.
Qed.

(** The payloads of a file with well-formed timing: every row lies between the
    time base and the time base plus the final running end time. *)
Lemma payload_loop_time o name ps :
  forall bound s,
    times_ok bound ps = true -> (file_finish s <= bound)%Q ->
    forall r, In r (snd (payload_loop o name ps s)) ->
      (file_start s * 1000 <= row_cts r
       /\ row_cts r <= (file_start s + file_end (file_finish s) ps) * 1000)%Q.
Proof.
  induction ps as [| p rest IH]; intros bound s H L r; [intros [] |].
  apply times_ok_cons in H as (H1 & H2 & H3 & H4).
  cbn [payload_loop file_end]. unfold delivered.
  destruct (payload_ok p); cbn [negb andb]; [| intros []].
  cbn [ret set_ret].
  destruct (time_ret p); cbn [is_ok negb andb]; try (intros []).
  destruct (init_ret p); cbn [is_ok negb]; try (intros []).
  set (s2 := set_ret GPMF_OK (set_ret GPMF_OK s)).
  pose proof (block_loop_frame o name (start p) (finish p) (blocks p) s2) as (F1 & G1 & E1).
  pose proof (block_loop_time o name (start p) (finish p) (blocks p) H2 s2 r) as R1.
  destruct (block_loop o name (start p) (finish p) (blocks p) s2) as [s3 out1].
  cbn [fst snd] in F1, G1, E1, R1.
  change (file_start s2) with (file_start s) in F1, R1.
  change (file_finish s2) with (file_finish s) in G1.
  assert (L3 : (file_finish s3 <= finish p)%Q).
  { rewrite G1. destruct (existsb decoded (blocks p)); lra. }
  specialize (IH (finish p) s3 H4 L3 r).
  pose proof (file_end_ge rest (finish p) (file_finish s3) H4 L3) as GE.
  destruct (payload_loop o name rest s3) as [s4 out2].
  cbn [fst snd] in *. rewrite G1 in IH, GE. rewrite F1 in IH.
  intros Hr. apply in_app_or in Hr as [Hr | Hr].
  - destruct (existsb decoded (blocks p)) eqn:D.
    + destruct (R1 Hr) as [Lo Hi]. split; lra.
    + rewrite (E1 eq_refl) in Hr. destruct Hr.
  - now apply IH.
Qed.

(** One file: the next time base, and the rows between the two time bases. *)
Lemma process_file_frame o f s :
  file_start (snd (fst (process_file o f s)))
  = (if fst (fst (process_file o f s))
     then (file_start s + file_end 0 (payloads f))%Q else file_start s).
Proof.
  unfold process_file.
  pose proof (payload_loop_frame o (mp4filename f) (payloads f) (set_file_finish 0 s))
    as (F & G).
  destruct (payload_loop _ _ _ _) as [s1 out].
  cbn [fst snd file_start file_finish set_file_finish] in F, G.
  destruct (is_ok (ret s1)); cbn [fst snd file_start set_file_start]; congruence.
Qed.

Lemma process_file_time o f s :
  times_ok 0 (payloads f) = true ->
  forall r, In r (snd (process_file o f s)) ->
    (file_start s * 1000 <= row_cts r
     /\ row_cts r <= (file_start s + file_end 0 (payloads f)) * 1000)%Q.
Proof.
  intros H. unfold process_file.
  pose proof (fun r => payload_loop_time o (mp4filename f) (payloads f) 0
                         (set_file_finish 0 s) H (Qle_refl 0) r) as R.
  destruct (payload_loop _ _ _ _) as [s1 out].
  cbn [fst snd file_start file_finish set_file_finish] in R.
  intros r Hr. destruct (is_ok (ret s1)); cbn [snd] in Hr; now apply R.
Qed.

(** Blocks that are not position blocks emit nothing. *)
Lemma sample_loop_no_rows o name b step n :
  is_position b = false ->
  forall c s, snd (sample_loop o name b step n c s) = [].
Proof.
  intros P. induction n as [| n IH]; intros c s; [reflexivity |].
  cbn [sample_loop].
  assert (E : snd (sample o name b step c s) = []).
  { unfold is_position in P. unfold sample. destruct (key b); try discriminate; reflexivity. }
  destruct (sample o name b step c s) as [[c1 s1] out1]. cbn [snd] in E. subst out1.
  specialize (IH c1 s1).
  destruct (sample_loop o name b step n c1 s1) as [[c2 s2] out2]. exact IH.
Qed.

Lemma process_block_no_rows o name st fi b s :
  is_position b = false -> snd (process_block o name st fi b s) = [].
Proof.
  intros P. destruct (decoded b) eqn:D.
  - rewrite process_block_decoded by assumption.
    pose proof (sample_loop_no_rows o name b ((fi - st) / inject_Z (samples b))%Q
                  (Z.to_nat (samples b)) P (mk_cursor 0 st) (set_file_finish fi s)) as H.
    destruct (sample_loop _ _ _ _ _ _ _) as [[c1 s1] out1]. exact H.
  - now rewrite process_block_not_decoded.
Qed.

Lemma block_loop_app o name st fi l1 l2 :
  forall s,
    block_loop o name st fi (l1 ++ l2) s =
    (fst (block_loop o name st fi l2 (fst (block_loop o name st fi l1 s))),
     snd (block_loop o name st fi l1 s)
     ++ snd (block_loop o name st fi l2 (fst (block_loop o name st fi l1 s)))).
Proof.
  induction l1 as [| b rest IH]; intros s.
  - cbn [app block_loop fst snd]. now destruct (block_loop o name st fi l2 s).
  - cbn [app block_loop].
    destruct (process_block o name st fi b s) as [s1 out1].
    rewrite IH.
    destruct (block_loop o name st fi rest s1) as [s2 out2]. cbn [fst snd].
    now rewrite app_assoc.
Qed.

Lemma block_loop_no_rows o name st fi bs :
  forallb (fun b => negb (is_position b)) bs = true ->
  forall s, snd (block_loop o name st fi bs s) = [].
Proof.
  induction bs as [| b rest IH]; intros H s; [reflexivity |].
  cbn [forallb] in H. apply andb_prop in H as [Hb Hr]. apply negb_true_iff in Hb.
  cbn [block_loop].
  pose proof (process_block_no_rows o name st fi b s Hb) as E.
  destruct (process_block o name st fi b s) as [s1 out1]. cbn [snd] in E. subst out1.
  specialize (IH Hr s1).
  destruct (block_loop o name st fi rest s1) as [s2 out2]. exact IH.
Qed.

(** A decoded position block whose first sample is emitted: its first row is
    stamped with the payload's start time. *)
Lemma process_block_first_row o name st fi b s :
  decoded b = true -> 0 < samples b ->
  sample_emits o b (mk_cursor 0 st) s = true ->
  exists r rest,
    snd (process_block o name st fi b s) = r :: rest
    /\ row_cts r = ((file_start s + st) * 1000)%Q.
Proof.
  intros D N E. rewrite process_block_decoded by assumption.
  destruct (Z.to_nat (samples b)) as [| n] eqn:En; [lia |].
  cbn [sample_loop].
  set (step := ((fi - st) / inject_Z (samples b))%Q).
  assert (H : exists r,
             snd (sample o name b step (mk_cursor 0 st) (set_file_finish fi s)) = [r]
             /\ row_cts r = ((file_start s + st) * 1000)%Q).
  { unfold sample_emits in E. unfold sample, gps5_sample, gps9_sample.
    destruct (key b); try discriminate.
    - apply andb_prop in E as [E1 E2]. apply negb_true_iff in E1.
      cbn [use_gps9 set_file_finish fix_ precision]. rewrite E1, E2.
      eexists. split; reflexivity.
    - rewrite E. eexists. split; reflexivity. }
  destruct H as (r & Hr & Hc).
  destruct (sample o name b step _ _) as [[c1 s1] out1]. cbn [snd] in Hr. subst out1.
  destruct (sample_loop o name b step n c1 s1) as [[c2 s2] out2].
  exists r, out2. split; [reflexivity | exact Hc].
Qed.

(** The first row of a file whose first payload is delivered and reaches,
    after blocks that are not position blocks, a position block whose first
    sample is emitted. *)
Lemma process_file_first_row o f s p ps pre b bs :
  payloads f = p :: ps -> delivered p = true ->
  blocks p = pre ++ b :: bs ->
  forallb (fun x => negb (is_position x)) pre = true ->
  decoded b = true -> 0 < samples b ->
  sample_emits o b (mk_cursor 0 (start p))
    (fst (block_loop o (mp4filename f) (start p) (finish p) pre
            (set_ret GPMF_OK (set_ret GPMF_OK (set_file_finish 0 s))))) = true ->
  exists r rest,
    snd (process_file o f s) = r :: rest
    /\ row_cts r = ((file_start s + start p) * 1000)%Q.
Proof.
  intros Hp Hd Hb Hpre D N E.
  unfold process_file. rewrite Hp. cbn [payload_loop].
  unfold delivered in Hd. apply andb_prop in Hd as [Hd H3]. apply andb_prop in Hd as [H1 H2].
  rewrite H1. cbn [negb ret set_ret].
  destruct (time_ret p); try discriminate. cbn [is_ok negb].
  destruct (init_ret p); try discriminate. cbn [is_ok negb].
  rewrite Hb, block_loop_app.
  rewrite (block_loop_no_rows o (mp4filename f) (start p) (finish p) pre Hpre).
  pose proof (block_loop_frame o (mp4filename f) (start p) (finish p) pre
                (set_ret GPMF_OK (set_ret GPMF_OK (set_file_finish 0 s)))) as (F & _).
  set (s_pre := fst (block_loop o (mp4filename f) (start p) (finish p) pre _)) in *.
  cbn [file_start set_ret set_file_finish] in F.
  cbn [block_loop app].
  destruct (process_block_first_row o (mp4filename f) (start p) (finish p) b s_pre D N E)
    as (r & rest & Hr & Hc).
  destruct (process_block o (mp4filename f) (start p) (finish p) b s_pre) as [s1 out1].
  cbn [snd] in Hr. subst out1.
  destruct (block_loop o (mp4filename f) (start p) (finish p) bs s1) as [s2 out2].
  cbn [fst snd app].
  destruct (payload_loop o (mp4filename f) ps s2) as [s4 out4].
  exists r, ((rest ++ out2) ++ out4).
  split; [| congruence].
  destruct (is_ok (ret s4)); reflexivity.
Qed.

(** C7, the claim as stated fails: the last payload of the first file
    finishes at 10 s but carries no GPS block, so the time base of the second
    file is the 5 s of the payload before it, and the first row of the
    second file, whose first payload starts at 0, is stamped 5000. *)
Lemma C7_last_payload_without_gps_counterexample :
  let sA := snd (fst (process_file Samples.no_filter Samples.file_a Samples.s0)) in
  fst (fst (process_file Samples.no_filter Samples.file_a Samples.s0)) = true
  /\ (forall d, finish (last (payloads Samples.file_a) d) == 10)%Q
  /\ (forall d, start (hd d (payloads Samples.file_b)) == 0)%Q
  /\ exists r rest,
       snd (process_file Samples.no_filter Samples.file_b sA) = r :: rest
       /\ (row_cts r == 5000)%Q
       /\ ~ (row_cts r == 10 * 1000)%Q.
Proof.
  split; [reflexivity |]. split; [reflexivity |]. split; [reflexivity |].
  eexists. eexists. split; [vm_compute; reflexivity |].
  split; vm_compute; congruence.
Qed.

(** C7, amended: a file that ends without error adds to the time base the
    finish time of its last payload in which a GPS block was decoded
    ([file_end]); with well-formed payload timing every row of the next file
    is stamped no earlier than every row of this file; and when the next file
    starts with an emitted position sample, its first row is stamped with the
    new time base plus the start time of its first payload. *)
Theorem C7_time_base_across_files o fA fB s sA outA
    (HA : process_file o fA s = (true, sA, outA)) :
  file_start sA = (file_start s + file_end 0 (payloads fA))%Q
  /\ (times_ok 0 (payloads fA) = true -> times_ok 0 (payloads fB) = true ->
      forall rA rB, In rA outA -> In rB (snd (process_file o fB sA)) ->
        (row_cts rA <= row_cts rB)%Q)
  /\ (forall p ps pre b bs,
        payloads fB = p :: ps -> delivered p = true ->
        blocks p = pre ++ b :: bs ->
        forallb (fun x => negb (is_position x)) pre = true ->
        decoded b = true -> 0 < samples b ->
        sample_emits o b (mk_cursor 0 (start p))
          (fst (block_loop o (mp4filename fB) (start p) (finish p) pre
                  (set_ret GPMF_OK (set_ret GPMF_OK (set_file_finish 0 sA))))) = true ->
        exists r rest,
          snd (process_file o fB sA) = r :: rest
          /\ row_cts r
             = ((file_start s + file_end 0 (payloads fA) + start p) * 1000)%Q).
Proof.
  assert (F : file_start sA = (file_start s + file_end 0 (payloads fA))%Q).
  { pose proof (process_file_frame o fA s) as H. now rewrite HA in H. }
  split; [exact F | split].
  - intros TA TB rA rB InA InB.
    pose proof (process_file_time o fA s TA rA) as RA.
    rewrite HA in RA. destruct (RA InA) as [_ UA].
    destruct (process_file_time o fB sA TB rB InB) as [LB _].
    rewrite F in LB. lra.
  - intros p ps pre b bs Hp Hd Hb Hpre D N E.
    destruct (process_file_first_row o fB sA p ps pre b bs Hp Hd Hb Hpre D N E)
      as (r & rest & Hr & Hc).
    exists r, rest. split; [exact Hr |]. now rewrite Hc, F.
Qed.

(** The scenario of the specification: the last payload of the first file
    carries GPS data and finishes at 10 s, the second file starts at 0; its
    first row is stamped 10000. *)
Lemma C7_time_base_across_files_witness :
  let o := Samples.no_filter in
  let sA := snd (fst (process_file o Samples.file_a' Samples.s0)) in
  let outA := snd (process_file o Samples.file_a' Samples.s0) in
  process_file o Samples.file_a' Samples.s0 = (true, sA, outA)
  /\ (file_start sA == 10)%Q
  /\ (forall rA rB, In rA outA -> In rB (snd (process_file o Samples.file_b sA)) ->
        (row_cts rA <= row_cts rB)%Q)
  /\ (exists r rest,
        snd (process_file o Samples.file_b sA) = r :: rest
        /\ (row_cts r == 10 * 1000)%Q).
Proof.
  intros o sA outA.
  assert (HA : process_file o Samples.file_a' Samples.s0 = (true, sA, outA))
    by (vm_compute; reflexivity).
  destruct (C7_time_base_across_files o Samples.file_a' Samples.file_b Samples.s0 sA outA HA)
    as (F & M & R).
  split; [exact HA | split; [| split]].
  - rewrite F. vm_compute. reflexivity.
  - apply M; vm_compute; reflexivity.
  - destruct (R (Samples.good_payload 0 1 [Samples.gps5_block 1 Samples.gps5_values])
                [] [] (Samples.gps5_block 1 Samples.gps5_values) [])
      as (r & rest & Hr & Hc); try reflexivity.
    exists r, rest. split; [exact Hr |]. rewrite Hc. vm_compute. reflexivity.
Defined.

(** * Further properties of the program *)

(** ** The command line *)

Lemma parse_arg_is_option (o : options) (arg : string) :
  (is_option arg = true -> exists o', parse_arg o arg = Some o')
  /\ (is_option arg = false -> parse_arg o arg = None).
Proof.
  unfold is_option, parse_arg.
  destruct (String.eqb arg "--print_filename"); [split; [eauto | discriminate] |].
  destruct (String.eqb arg "--print_filepath"); [split; [eauto | discriminate] |].
  destruct (String.prefix "--min_fix=" arg); [split; [eauto | discriminate] |].
  destruct (String.prefix "--max_precision=" arg); [split; [eauto | discriminate] |].
  split; [discriminate | reflexivity].
Qed.

Lemma parse_options_app (opts : list string) :
  Forall (fun a => is_option a = true) opts ->
  forall o rest,
    parse_options o (opts ++ rest)
    = parse_options (fst (parse_options o opts)) rest
    /\ snd (parse_options o opts) = [].
Proof.
  induction 1 as [| a opts Ha _ IH]; intros o rest; [split; reflexivity |].
  cbn [app parse_options].
  destruct (proj1 (parse_arg_is_option o a) Ha) as [o' ->]. apply IH.
Qed.

(** X1: the options are the arguments before the first one that is not an
    option; that argument and all the arguments after it are file names, also
    those that have the form of an option. *)
Theorem X1_options_end_at_first_file (o : options) (opts : list string)
    (name : string) (rest : list string)
    (Hopts : Forall (fun a => is_option a = true) opts)
    (Hname : is_option name = false) :
  parse_options o (opts ++ name :: rest)
  = (fst (parse_options o opts), name :: rest).
Proof.
  destruct (parse_options_app opts Hopts o (name :: rest)) as [-> _].
  cbn [parse_options].
  now rewrite (proj2 (parse_arg_is_option _ name) Hname).
Qed.

(** The file "a.mp4" followed by an argument that looks like a threshold. *)
Lemma X1_options_end_at_first_file_witness :
  Forall (fun a => is_option a = true) ["--min_fix=3"; "--print_filename"]%string
  /\ is_option "a.mp4" = false
  /\ parse_options default_options
       ["--min_fix=3"; "--print_filename"; "a.mp4"; "--max_precision=5"]%string
     = (mk_options 3 (-1) true false, ["a.mp4"; "--max_precision=5"]%string).
Proof.
  assert (H1 : Forall (fun a => is_option a = true)
                 ["--min_fix=3"; "--print_filename"]%string)
    by (repeat constructor).
  assert (H2 : is_option "a.mp4" = false) by reflexivity.
  split; [exact H1 | split; [exact H2 |]].
  exact (X1_options_end_at_first_file default_options
           ["--min_fix=3"; "--print_filename"]%string "a.mp4"
           ["--max_precision=5"]%string H1 H2).
Defined.

(** X2: a command line without a file name, empty or made of options only,
    prints nothing and ends with -1, whatever the reader would return. *)
Theorem X2_no_file_is_usage_error (args : list string) (reader : string -> file)
    (fix0 precision0 : Z) (gpsu0 : gpsu_t)
    (Hargs : Forall (fun a => is_option a = true) args) :
  main_argv args reader fix0 precision0 gpsu0 = (ExitMinusOne, []).
Proof.
  unfold main_argv. destruct args as [| a args]; [reflexivity |].
  destruct (parse_options_app (a :: args) Hargs default_options []) as [_ E].
  destruct (parse_options default_options (a :: args)) as [o names].
  cbn [snd] in E. subst names. reflexivity.
Qed.

Lemma X2_no_file_is_usage_error_witness :
  Forall (fun a => is_option a = true) ["--print_filepath"; "--max_precision=200"]%string
  /\ main_argv ["--print_filepath"; "--max_precision=200"]%string
       (fun _ => Samples.file_gps5) 3 50 Samples.clock0
     = (ExitMinusOne, []).
Proof.
  assert (H : Forall (fun a => is_option a = true)
                ["--print_filepath"; "--max_precision=200"]%string)
    by (repeat constructor).
  split; [exact H |].
  exact (X2_no_file_is_usage_error _ (fun _ => Samples.file_gps5) 3 50 Samples.clock0 H).
Defined.

Lemma parse_options_thresholds (args : list string) :
  Forall (fun a => is_threshold_option a = false) args ->
  forall o,
    min_fix (fst (parse_options o args)) = min_fix o
    /\ max_precision (fst (parse_options o args)) = max_precision o.
Proof.
  induction 1 as [| a args Ha _ IH]; intros o; [split; reflexivity |].
  cbn [parse_options]. unfold parse_arg.
  unfold is_threshold_option in Ha. apply orb_false_iff in Ha as [H1 H2].
  rewrite H1, H2.
  destruct (String.eqb a "--print_filename");
    [exact (IH (set_print_filename true o)) |].
  destruct (String.eqb a "--print_filepath");
    [exact (IH (set_print_filepath true o)) |].
  split; reflexivity.
Qed.

(** X3: without a threshold option on the command line, no sample is ever
    filtered out. *)
Theorem X3_no_threshold_option_no_filtering (args : list string) (f p : Z)
    (Hargs : Forall (fun a => is_threshold_option a = false) args) :
  filter_passes (fst (parse_options default_options args)) f p = true.
Proof.
  destruct (parse_options_thresholds args Hargs default_options) as [E1 E2].
  unfold filter_passes. rewrite E1, E2. reflexivity.
Qed.

Lemma X3_no_threshold_option_no_filtering_witness :
  Forall (fun a => is_threshold_option a = false) ["--print_filename"; "a.mp4"]%string
  /\ filter_passes
       (fst (parse_options default_options ["--print_filename"; "a.mp4"]%string)) 0 9999
     = true.
Proof.
  assert (H : Forall (fun a => is_threshold_option a = false)
                ["--print_filename"; "a.mp4"]%string)
    by (repeat constructor).
  split; [exact H |].
  exact (X3_no_threshold_option_no_filtering _ 0 9999 H).
Defined.

(** ** The file column *)

Lemma after_last_slash_none (s : string) :
  no_slash s = true -> after_last_slash s = None.
Proof.
  induction s as [| c rest IH]; [reflexivity |].
  cbn [no_slash after_last_slash]. intros H.
  apply andb_prop in H as [Hc Hr]. apply negb_true_iff in Hc.
  now rewrite (IH Hr), Hc.
Qed.

Lemma after_last_slash_app (dir name : string) :
  no_slash name = true ->
  after_last_slash (dir ++ String "/" name) = Some name.
Proof.
  intros H. induction dir as [| c dir IH].
  - cbn [String.append after_last_slash]. now rewrite (after_last_slash_none name H).
  - cbn [String.append after_last_slash]. now rewrite IH.
Qed.

(** X4: the name shown with [--print_filename] is the part of the path after
    its last '/', and the whole path when it has none; [--print_filepath] has
    precedence and shows the path as given. *)
Theorem X4_file_column_bare_name (o : options) (dir name : string)
    (Hname : no_slash name = true) :
  display_name (dir ++ String "/" name) = name
  /\ display_name name = name
  /\ (print_filepath o = false -> print_filename o = true ->
      file_column o (dir ++ String "/" name) = Some name)
  /\ (print_filepath o = true ->
      file_column o (dir ++ String "/" name) = Some (dir ++ String "/" name)%string).
Proof.
  assert (E1 : display_name (dir ++ String "/" name) = name).
  { unfold display_name. now rewrite after_last_slash_app. }
  split; [exact E1 | split; [| split]].
  - unfold display_name. now rewrite after_last_slash_none.
  - intros P1 P2. unfold file_column. now rewrite P1, P2, E1.
  - intros P1. unfold file_column. now rewrite P1.
Qed.

Lemma X4_file_column_bare_name_witness :
  no_slash "GX010001.MP4" = true
  /\ display_name "/media/card/GX010001.MP4" = "GX010001.MP4"%string.
Proof.
  assert (H : no_slash "GX010001.MP4" = true) by reflexivity.
  split; [exact H |].
  exact (proj1 (X4_file_column_bare_name default_options "/media/card" "GX010001.MP4" H)).
Defined.

(** ** The header and the files that cannot be processed *)

Lemma file_loop_rows o fs :
  forall s, exists rows, snd (file_loop o false fs s) = map Row rows.
Proof.
  induction fs as [| f rest IH]; intros s; [now exists [] |].
  cbn [file_loop].
  destruct (negb (mp4handle_ok f)); [now exists [] |].
  destruct (Qle_bool (metadataduration f) 0); [now exists [] |].
  destruct (process_file o f s) as [[go_on s1] out]. destruct go_on.
  - destruct (IH s1) as [rows E].
    destruct (file_loop o false rest s1) as [[e s2] out2]. cbn [snd] in *.
    exists (out ++ rows). now rewrite E, map_app.
  - exists out. reflexivity.
Qed.

(** X5: the header is the first line of the output and the only header in it;
    it is printed as soon as the first file is opened with a positive duration,
    and when the first file cannot be processed nothing is printed at all. *)
Theorem X5_header_once (o : options) (f : file) (fs : list file)
    (fix0 precision0 : Z) (gpsu0 : gpsu_t) :
  (unusable f = true -> snd (main o (f :: fs) fix0 precision0 gpsu0) = [])
  /\ (unusable f = false ->
      exists rows,
        snd (main o (f :: fs) fix0 precision0 gpsu0) = header o :: map Row rows).
Proof.
  unfold main, unusable. cbn [file_loop].
  destruct (negb (mp4handle_ok f)); cbn [orb].
  - split; [reflexivity | discriminate].
  - destruct (Qle_bool (metadataduration f) 0).
    + split; [reflexivity | discriminate].
    + split; [discriminate | intros _].
      destruct (process_file o f (initial_state fix0 precision0 gpsu0))
        as [[go_on s1] out].
      destruct go_on.
      * destruct (file_loop_rows o fs s1) as [rows E].
        destruct (file_loop o false fs s1) as [[e s2] out2]. cbn [snd] in *.
        exists (out ++ rows). cbn [app]. now rewrite E, map_app.
      * exists out. reflexivity.
Qed.

Lemma X5_header_once_witness :
  unusable Samples.file_gps5 = false
  /\ exists rows,
       snd (main Samples.no_filter [Samples.file_gps5; Samples.file_b] 3 50 Samples.clock0)
       = header Samples.no_filter :: map Row rows.
Proof.
  assert (H : unusable Samples.file_gps5 = false) by reflexivity.
  split; [exact H |].
  exact (proj2 (X5_header_once Samples.no_filter Samples.file_gps5 [Samples.file_b]
                  3 50 Samples.clock0) H).
Defined.

Lemma process_file_go_on o f s :
  fst (fst (process_file o f s)) = is_ok (ret (snd (fst (process_file o f s)))).
Proof.
  unfold process_file.
  destruct (payload_loop o (mp4filename f) (payloads f) (set_file_finish 0 s)) as [s1 out].
  destruct (is_ok (ret s1)) eqn:E; cbn [fst snd ret set_file_start]; now rewrite E.
Qed.

(** X6: a file that cannot be opened, or has no positive duration, ends the
    run with -1: it prints nothing, the files after it are never looked at, and
    what the files before it printed is what they print without it. *)
Theorem X6_unusable_file_ends_run (o : options) (before after : list file) (f : file)
    (Hf : unusable f = true) :
  forall first s,
    snd (file_loop o first (before ++ f :: after) s)
    = snd (file_loop o first before s)
    /\ (fst (fst (file_loop o first before s)) = ExitRet GPMF_OK ->
        fst (fst (file_loop o first (before ++ f :: after) s)) = ExitMinusOne).
Proof.
  induction before as [| g before IH]; intros first s.
  - cbn [app file_loop]. unfold unusable in Hf.
    destruct (negb (mp4handle_ok f)); [split; reflexivity |].
    cbn [orb] in Hf. rewrite Hf. split; reflexivity.
  - cbn [app file_loop].
    destruct (negb (mp4handle_ok g)); [split; [reflexivity | discriminate] |].
    destruct (Qle_bool (metadataduration g) 0); [split; [reflexivity | discriminate] |].
    pose proof (process_file_go_on o g s) as G.
    destruct (process_file o g s) as [[go_on s1] out]. cbn [fst snd] in G.
    destruct go_on.
    + specialize (IH false s1).
      destruct (file_loop o false (before ++ f :: after) s1) as [[e s2] out2].
      destruct (file_loop o false before s1) as [[e' s2'] out2'].
      cbn [fst snd] in *. destruct IH as [E1 E2]. split; [now rewrite E1 | exact E2].
    + split; [reflexivity |]. cbn [fst]. intros [= E].
      rewrite E in G. discriminate.
Qed.

Lemma X6_unusable_file_ends_run_witness :
  let missing := mk_file "missing.mp4" false 0 [] in
  unusable missing = true
  /\ snd (file_loop Samples.no_filter true [Samples.file_gps5; missing; Samples.file_b]
            Samples.s0)
     = snd (file_loop Samples.no_filter true [Samples.file_gps5] Samples.s0)
  /\ fst (fst (file_loop Samples.no_filter true
                 [Samples.file_gps5; missing; Samples.file_b] Samples.s0))
     = ExitMinusOne.
Proof.
  intros missing.
  assert (H : unusable missing = true) by reflexivity.
  destruct (X6_unusable_file_ends_run Samples.no_filter [Samples.file_gps5]
              [Samples.file_b] missing H true Samples.s0) as [E1 E2].
  split; [exact H | split; [exact E1 | apply E2; reflexivity]].
Defined.

(** ** The exit status *)

Lemma sample_ret o name b step c s :
  ret (snd (fst (sample o name b step c s))) = ret s.
Proof.
  unfold sample, gps5_sample, gps9_sample.
  destruct (key b); try reflexivity.
  - destruct (use_gps9 s); reflexivity.
  - destruct (filter_passes o _ _); [destruct (Qeq_bool 0 (now c)) |]; reflexivity.
Qed.

Lemma sample_loop_ret o name b step n :
  forall c s, ret (snd (fst (sample_loop o name b step n c s))) = ret s.
Proof.
  induction n as [| n IH]; intros c s; [reflexivity |].
  cbn [sample_loop].
  pose proof (sample_ret o name b step c s) as H1.
  destruct (sample o name b step c s) as [[c1 s1] out1].
  specialize (IH c1 s1).
  destruct (sample_loop o name b step n c1 s1) as [[c2 s2] out2].
  cbn [fst snd] in *. congruence.
Qed.

Lemma process_block_ret o name st fi b s :
  ret (fst (process_block o name st fi b s)) = ret s.
Proof.
  destruct (decoded b) eqn:D.
  - rewrite process_block_decoded by assumption.
    pose proof (sample_loop_ret o name b ((fi - st) / inject_Z (samples b))%Q
                  (Z.to_nat (samples b)) (mk_cursor 0 st) (set_file_finish fi s)) as H.
    destruct (sample_loop _ _ _ _ _ _ _) as [[c1 s1] out1]. exact H.
  - now rewrite process_block_not_decoded.
Qed.

Lemma block_loop_ret o name st fi bs :
  forall s, ret (fst (block_loop o name st fi bs s)) = ret s.
Proof.
  induction bs as [| b rest IH]; intros s; [reflexivity |].
  cbn [block_loop].
  pose proof (process_block_ret o name st fi b s) as H1.
  destruct (process_block o name st fi b s) as [s1 out1].
  specialize (IH s1).
  destruct (block_loop o name st fi rest s1) as [s2 out2].
  cbn [fst] in *. congruence.
Qed.

Lemma payload_loop_ret o name ps :
  forall s, ret (fst (payload_loop o name ps s)) = payload_status (ret s) ps.
Proof.
  induction ps as [| p rest IH]; intros s; [reflexivity |].
  cbn [payload_loop payload_status].
  destruct (negb (payload_ok p)); [reflexivity |].
  cbn [ret set_ret].
  destruct (negb (is_ok (time_ret p))); [reflexivity |].
  destruct (negb (is_ok (init_ret p))); [reflexivity |].
  pose proof (block_loop_ret o name (start p) (finish p) (blocks p)
                (set_ret (init_ret p) (set_ret (time_ret p) s))) as H1.
  destruct (block_loop _ _ _ _ _ _) as [s3 out1].
  specialize (IH s3).
  destruct (payload_loop o name rest s3) as [s4 out2].
  cbn [fst ret set_ret] in *. congruence.
Qed.

Lemma process_file_ret o f s :
  ret (snd (fst (process_file o f s))) = payload_status (ret s) (payloads f).
Proof.
  unfold process_file.
  pose proof (payload_loop_ret o (mp4filename f) (payloads f) (set_file_finish 0 s)) as H.
  destruct (payload_loop _ _ _ _) as [s1 out]. cbn [fst ret set_file_finish] in H.
  destruct (is_ok (ret s1)); exact H.
Qed.

(** X7: the exit status is decided by what the reader reports for the files
    and their payloads alone (handle, duration, payload present, timing and
    initialisation results); the options, the blocks, their decode results and
    the allocation failures never change it. *)
Theorem X7_exit_status_from_reader (o : options) (fs : list file) :
  forall first s,
    fst (fst (file_loop o first fs s)) = run_status (ret s) fs.
Proof.
  induction fs as [| f rest IH]; intros first s; [reflexivity |].
  cbn [file_loop run_status]. unfold unusable.
  destruct (negb (mp4handle_ok f)); [reflexivity |]. cbn [orb].
  destruct (Qle_bool (metadataduration f) 0); [reflexivity |].
  pose proof (process_file_go_on o f s) as G.
  pose proof (process_file_ret o f s) as R.
  destruct (process_file o f s) as [[go_on s1] out]. cbn [fst snd] in G, R.
  rewrite <- R, <- G. destruct go_on.
  - specialize (IH false s1).
    destruct (file_loop o false rest s1) as [[e s2] out2]. exact IH.
  - reflexivity.
Qed.

(** ** Payloads that are not delivered *)

(** X8: the first payload that is not delivered ends the file: the payloads
    after it are never looked at.  A payload that the reader cannot return at
    all is passed over in silence, as if the file had ended before it: nothing
    is printed for it and [ret] keeps its value. *)
Theorem X8_undelivered_payload_ends_file (o : options) (name : string)
    (before after : list payload) (p : payload)
    (Hp : delivered p = false) :
  forall s,
    payload_loop o name (before ++ p :: after) s
    = payload_loop o name (before ++ [p]) s
    /\ (payload_ok p = false ->
        payload_loop o name (before ++ p :: after) s = payload_loop o name before s).
Proof.
  assert (Hcut : forall s, payload_loop o name (p :: after) s = payload_loop o name [p] s).
  { intros s. cbn [payload_loop]. unfold delivered in Hp.
    destruct (payload_ok p); cbn [negb andb] in *; [| reflexivity].
    cbn [ret set_ret].
    destruct (is_ok (time_ret p)); cbn [negb andb] in *; [| reflexivity].
    rewrite Hp. reflexivity. }
  induction before as [| q before IH]; intros s.
  - cbn [app]. split; [apply Hcut |].
    intros N. cbn [payload_loop]. now rewrite N.
  - cbn [app payload_loop].
    destruct (negb (payload_ok q)); [split; reflexivity |].
    destruct (negb (is_ok (ret (set_ret (time_ret q) s)))); [split; reflexivity |].
    destruct (negb (is_ok (ret (set_ret (init_ret q) (set_ret (time_ret q) s)))));
      [split; reflexivity |].
    destruct (block_loop _ _ _ _ _ _) as [s3 out1].
    destruct (IH s3) as [E1 E2]. split.
    + now rewrite E1.
    + intros N. now rewrite (E2 N).
Qed.

Lemma X8_undelivered_payload_ends_file_witness :
  let lost := mk_payload false GPMF_OK 1 2 GPMF_OK [Samples.gps5_block 1 Samples.gps5_values] in
  let first := Samples.good_payload 0 1 [Samples.gps5_block 1 Samples.gps5_values] in
  let last := Samples.good_payload 2 3 [Samples.gps5_block 1 Samples.gps5_values] in
  delivered lost = false
  /\ payload_loop Samples.no_filter "f" [first; lost; last] Samples.s0
     = payload_loop Samples.no_filter "f" [first] Samples.s0.
Proof.
  intros lost first last.
  assert (H : delivered lost = false) by reflexivity.
  split; [exact H |].
  exact (proj2 (X8_undelivered_payload_ends_file Samples.no_filter "f" [first] [last]
                  lost H Samples.s0) eq_refl).
Defined.

(** ** Where the rows come from *)

Section RowsInvariant.

Variable o : options.

(** A property of rows that every sample establishes for the rows it emits. *)
Variable P : string -> block -> row -> Prop.
Hypothesis sample_P :
  forall name b step c s r, In r (snd (sample o name b step c s)) -> P name b r.

Lemma sample_loop_rows_from name b step n :
  forall c s r, In r (snd (sample_loop o name b step n c s)) -> P name b r.
Proof.
  induction n as [| n IH]; intros c s r; [intros [] |].
  cbn [sample_loop].
  pose proof (sample_P name b step c s r) as H1.
  destruct (sample o name b step c s) as [[c1 s1] out1].
  specialize (IH c1 s1 r).
  destruct (sample_loop o name b step n c1 s1) as [[c2 s2] out2].
  cbn [snd] in *. intros H. apply in_app_or in H as [H | H]; auto.
Qed.

Lemma process_block_rows_from name st fi b s r :
  In r (snd (process_block o name st fi b s)) -> P name b r.
Proof.
  destruct (decoded b) eqn:D.
  - rewrite process_block_decoded by assumption.
    pose proof (sample_loop_rows_from name b ((fi - st) / inject_Z (samples b))%Q
                  (Z.to_nat (samples b)) (mk_cursor 0 st) (set_file_finish fi s) r) as H.
    destruct (sample_loop _ _ _ _ _ _ _) as [[c1 s1] out1]. exact H.
  - rewrite process_block_not_decoded by assumption. intros [].
Qed.

Lemma block_loop_rows_from name st fi bs :
  forall s r, In r (snd (block_loop o name st fi bs s)) ->
    exists b, In b bs /\ P name b r.
Proof.
  induction bs as [| b rest IH]; intros s r; [intros [] |].
  cbn [block_loop].
  pose proof (process_block_rows_from name st fi b s r) as H1.
  destruct (process_block o name st fi b s) as [s1 out1].
  specialize (IH s1 r).
  destruct (block_loop o name st fi rest s1) as [s2 out2].
  cbn [snd] in *. intros H. apply in_app_or in H as [H | H].
  - exists b. split; [now left | auto].
  - destruct (IH H) as (b' & I & Pb). exists b'. split; [now right | exact Pb].
Qed.

Lemma payload_loop_rows_from name ps :
  forall s r, In r (snd (payload_loop o name ps s)) ->
    exists b, In b (flat_map blocks ps) /\ P name b r.
Proof.
  induction ps as [| p rest IH]; intros s r; [intros [] |].
  cbn [payload_loop flat_map].
  destruct (negb (payload_ok p)); [intros [] |].
  destruct (negb (is_ok (ret (set_ret (time_ret p) s)))); [intros [] |].
  destruct (negb (is_ok (ret (set_ret (init_ret p) (set_ret (time_ret p) s)))));
    [intros [] |].
  pose proof (block_loop_rows_from name (start p) (finish p) (blocks p)
                (set_ret (init_ret p) (set_ret (time_ret p) s)) r) as H1.
  destruct (block_loop _ _ _ _ _ _) as [s3 out1].
  specialize (IH s3 r).
  destruct (payload_loop o name rest s3) as [s4 out2].
  cbn [snd] in *. intros H. apply in_app_or in H as [H | H].
  - destruct (H1 H) as (b & I & Pb). exists b. split; [| exact Pb].
    apply in_or_app. now left.
  - destruct (IH H) as (b & I & Pb). exists b. split; [| exact Pb].
    apply in_or_app. now right.
Qed.

Lemma process_file_rows_from f s r :
  In r (snd (process_file o f s)) ->
  exists b, In b (flat_map blocks (payloads f)) /\ P (mp4filename f) b r.
Proof.
  unfold process_file.
  pose proof (payload_loop_rows_from (mp4filename f) (payloads f) (set_file_finish 0 s) r)
    as H.
  destruct (payload_loop _ _ _ _) as [s1 out].
  destruct (is_ok (ret s1)); exact H.
Qed.

Lemma file_loop_rows_from fs :
  forall first s r, In (Row r) (snd (file_loop o first fs s)) ->
    exists f b, In f fs /\ In b (flat_map blocks (payloads f)) /\ P (mp4filename f) b r.
Proof.
  induction fs as [| f rest IH]; intros first s r; [intros [] |].
  cbn [file_loop].
  destruct (negb (mp4handle_ok f)); [intros [] |].
  destruct (Qle_bool (metadataduration f) 0); [intros [] |].
  pose proof (process_file_rows_from f s r) as H1.
  destruct (process_file o f s) as [[go_on s1] out].
  assert (Hhead : forall tl_, In (Row r) ((if first then [header o] else []) ++ tl_) ->
                              In (Row r) tl_).
  { intros tl_ H. destruct first; [| exact H].
    destruct H as [H | H]; [discriminate H | exact H]. }
  assert (Hout : In (Row r) (map Row out) ->
                 exists f0 b, In f0 (f :: rest) /\ In b (flat_map blocks (payloads f0))
                              /\ P (mp4filename f0) b r).
  { intros H. apply in_map_iff in H as (r' & [= ->] & I).
    destruct (H1 I) as (b & Ib & Pb). exists f, b. split; [now left | auto]. }
  destruct go_on.
  - specialize (IH false s1 r).
    destruct (file_loop o false rest s1) as [[e s2] out2].
    cbn [snd] in *. intros H. apply Hhead in H. apply in_app_or in H as [H | H].
    + now apply Hout.
    + destruct (IH H) as (f0 & b & If & Ib & Pb).
      exists f0, b. split; [now right | auto].
  - cbn [snd]. intros H. apply Hhead in H. now apply Hout.
Qed.

End RowsInvariant.

Lemma sample_row_shape o name b step c s r :
  In r (snd (sample o name b step c s)) -> row_shape o name b r.
Proof.
  unfold sample, gps5_sample, gps9_sample, row_shape.
  destruct (key b) eqn:K; try (intros []).
  - destruct (use_gps9 s); [intros [] |].
    destruct (filter_passes o _ _); cbn [snd]; [| intros []].
    intros [<- | []]. cbn [row_file row_values row_ints].
    split; [reflexivity | right].
    split; [reflexivity | split; [| reflexivity]].
    now rewrite length_map, length_seq.
  - destruct (filter_passes o _ _); [destruct (Qeq_bool 0 (now c)) |]; cbn [snd].
    + intros [<- | []]. cbn [row_file row_values row_ints].
      split; [reflexivity | left; repeat split].
    + intros [<- | []]. cbn [row_file row_values row_ints].
      split; [reflexivity | left; repeat split].
    + intros [].
Qed.

Lemma file_loop_shape o fs :
  forall first s, exists rows,
    snd (file_loop o first fs s) = map Row rows
    \/ snd (file_loop o first fs s) = header o :: map Row rows.
Proof.
  intros first s. destruct fs as [| f rest]; [exists []; now left |].
  cbn [file_loop].
  destruct (negb (mp4handle_ok f)); [exists []; now left |].
  destruct (Qle_bool (metadataduration f) 0); [exists []; now left |].
  destruct (process_file o f s) as [[go_on s1] out].
  destruct go_on.
  - destruct (file_loop_rows o rest s1) as [rows E].
    destruct (file_loop o false rest s1) as [[e s2] out2]. cbn [snd] in *.
    exists (out ++ rows). rewrite E, <- map_app.
    destruct first; [now right | now left].
  - exists out. cbn [snd]. destruct first; [now right | now left].
Qed.

(** X9: when every "GPS5" block has five elements per sample, every line of
    the output has as many columns as the header (nine, or ten with the file
    column); a "GPS9" row always has its seven value columns, whatever the
    block's element count. *)
Theorem X9_rows_match_header (o : options) (fs : list file)
    (fix0 precision0 : Z) (gpsu0 : gpsu_t)
    (Hgps5 : forall b, In b (all_blocks fs) -> key b = GPS5 -> elements b = 5) :
  forall l, In l (snd (main o fs fix0 precision0 gpsu0)) ->
    line_width l = line_width (header o).
Proof.
  intros l Hl. unfold main in Hl. destruct fs as [| f0 rest0]; [destruct Hl |].
  set (fs := f0 :: rest0) in *.
  set (s := initial_state fix0 precision0 gpsu0) in *.
  pose proof (file_loop_shape o fs true s) as [rows Hshape].
  pose proof (file_loop_rows_from o (row_shape o) (sample_row_shape o) fs true s) as Hrows.
  destruct (file_loop o true fs s) as [[e s'] out]. cbn [snd] in *.
  assert (Hl' : l = header o \/ exists r, l = Row r).
  { destruct Hshape as [-> | ->].
    - apply in_map_iff in Hl as (r & <- & _). right. now exists r.
    - destruct Hl as [<- | Hl]; [now left |].
      apply in_map_iff in Hl as (r & <- & _). right. now exists r. }
  destruct Hl' as [-> | [r ->]]; [reflexivity |].
  destruct (Hrows r Hl) as (f & b & If & Ib & Hfile & Hcols).
  assert (Iall : In b (all_blocks fs)).
  { unfold all_blocks. apply in_flat_map. now exists f. }
  unfold line_width, header. rewrite Hfile. unfold file_column.
  destruct Hcols as [(K & Lv & Li) | (K & Lv & Li)].
  - rewrite Lv, Li.
    destruct (print_filepath o), (print_filename o); reflexivity.
  - rewrite Lv, Li, (Hgps5 b Iall K).
    destruct (print_filepath o), (print_filename o); reflexivity.
Qed.

Lemma X9_rows_match_header_witness :
  (forall b, In b (all_blocks [Samples.file_gps5; Samples.file_gps9]) ->
             key b = GPS5 -> elements b = 5)
  /\ forall l,
       In l (snd (main (mk_options (-1) (-1) true false)
                    [Samples.file_gps5; Samples.file_gps9] 3 50 Samples.clock0)) ->
       line_width l = 10%nat.
Proof.
  assert (H : forall b, In b (all_blocks [Samples.file_gps5; Samples.file_gps9]) ->
                        key b = GPS5 -> elements b = 5).
  { intros b Hb K. cbn in Hb.
    destruct Hb as [<- | [<- | [<- | []]]]; try discriminate K; reflexivity. }
  split; [exact H |].
  exact (X9_rows_match_header (mk_options (-1) (-1) true false)
           [Samples.file_gps5; Samples.file_gps9] 3 50 Samples.clock0 H).
Defined.

(** ** The rows of a position block *)

Lemma map_seq_succ {A} (f : nat -> A) (n : nat) :
  map f (seq 1 n) = map (fun i => f (S i)) (seq 0 n).
Proof. now rewrite <- seq_shift, map_map. Qed.

Lemma filter_seq_succ (p : nat -> bool) (n : nat) :
  filter p (seq 1 n) = map S (filter (fun i => p (S i)) (seq 0 n)).
Proof. now rewrite <- seq_shift, filter_map_swap. Qed.

(** The rows of the "GPS5" samples from the cursor [c] on: none when the
    carried fix and precision fail the filter, else one for each sample, with
    the sample's elements. *)
Lemma sample_loop_gps5_rows o name b step n :
  key b = GPS5 ->
  forall c s, use_gps9 s = false ->
    let e := Z.to_nat (elements b) in
    let out := snd (sample_loop o name b step n c s) in
    if filter_passes o (to_int (fix_ s)) (to_int (precision s))
    then map row_values out
         = map (fun i => map (fun j => nth (ptr c + i * e + j) (as_double b) 0%Q) (seq 0 e))
             (seq 0 n)
         /\ Forall (fun r => row_ints r = [to_int (fix_ s); to_int (precision s)]) out
    else out = [].
Proof.
  intros K. induction n as [| n IH]; intros c s G e out.
  - subst out. cbn. destruct (filter_passes o _ _); [split; [reflexivity | constructor] |
                                                      reflexivity].
  - subst out. cbn [sample_loop]. unfold sample. rewrite K, G. unfold gps5_sample.
    set (c1 := mk_cursor (ptr c + Z.to_nat (elements b)) (now c + step)%Q).
    set (s1 := set_gpsu (advance step (gpsu s)) s).
    specialize (IH c1 s1 G). cbn zeta in IH.
    change (fix_ s1) with (fix_ s) in IH. change (precision s1) with (precision s) in IH.
    destruct (sample_loop o name b step n c1 s1) as [[c2 s2] out2]. cbn [snd] in *.
    destruct (filter_passes o (to_int (fix_ s)) (to_int (precision s))).
    + destruct IH as [IHv IHi]. split.
      * cbn [app map seq row_values]. f_equal.
        -- apply map_ext. intros j. unfold read_double. f_equal. lia.
        -- rewrite IHv, map_seq_succ. apply map_ext. intros i.
           apply map_ext. intros j. f_equal. subst c1 e. cbn [ptr]. lia.
      * constructor; [reflexivity | exact IHi].
    + exact IH.
Qed.

(** The rows of the "GPS9" samples from the cursor [c] on: one for each
    sample that passes the filter on its own fix and precision, with the seven
    columns picked from it. *)
Lemma sample_loop_gps9_rows o name b step n :
  key b = GPS9 ->
  forall c s,
    let e := Z.to_nat (elements b) in
    map row_values (snd (sample_loop o name b step n c s))
    = map (fun i => map (fun j => nth (ptr c + i * e + j) (as_double b) 0%Q) gps9_indexes)
        (filter (fun i => filter_passes o
                            (trunc (nth (ptr c + i * e + 8) (as_double b) 0%Q))
                            (trunc (nth (ptr c + i * e + 7) (as_double b) 0%Q)))
           (seq 0 n)).
Proof.
  intros K. induction n as [| n IH]; intros c s e; subst e; [reflexivity |].
  cbn [sample_loop]. unfold sample. rewrite K.
  assert (Hc : fst (fst (gps9_sample o name b step c s))
               = mk_cursor (ptr c + Z.to_nat (elements b)) (now c + step)%Q).
  { unfold gps9_sample.
    destruct (filter_passes o _ _); [destruct (Qeq_bool 0 (now c)) |]; reflexivity. }
  assert (Hout : map row_values (snd (gps9_sample o name b step c s))
                 = if filter_passes o (trunc (read_double b c 8)) (trunc (read_double b c 7))
                   then [map (read_double b c) gps9_indexes] else []).
  { unfold gps9_sample.
    destruct (filter_passes o _ _); [destruct (Qeq_bool 0 (now c)) |]; reflexivity. }
  destruct (gps9_sample o name b step c s) as [[c1 s1] out1]. cbn [fst snd] in Hc, Hout.
  specialize (IH c1 s1). cbn zeta in IH.
  destruct (sample_loop o name b step n c1 s1) as [[c2 s2] out2]. cbn [snd] in *.
  rewrite map_app, Hout, IH. subst c1. cbn [ptr].
  set (e := Z.to_nat (elements b)).
  assert (Etail :
    map (fun i => map (fun j => nth (ptr c + e + i * e + j)
                                   (as_double b) 0%Q) gps9_indexes)
      (filter (fun i => filter_passes o
                 (trunc (nth (ptr c + e + i * e + 8) (as_double b) 0%Q))
                 (trunc (nth (ptr c + e + i * e + 7) (as_double b) 0%Q)))
         (seq 0 n))
    = map (fun i => map (fun j => nth (ptr c + i * e + j) (as_double b) 0%Q) gps9_indexes)
        (filter (fun i => filter_passes o
                   (trunc (nth (ptr c + i * e + 8) (as_double b) 0%Q))
                   (trunc (nth (ptr c + i * e + 7) (as_double b) 0%Q)))
           (seq 1 n))).
  { assert (A : forall i j, (ptr c + e + i * e + j
                             = ptr c + S i * e + j)%nat) by (intros; lia).
    rewrite filter_seq_succ, map_map.
    rewrite (filter_ext _ (fun i => filter_passes o
                   (trunc (nth (ptr c + S i * e + 8) (as_double b) 0%Q))
                   (trunc (nth (ptr c + S i * e + 7) (as_double b) 0%Q)))).
    - apply map_ext. intros i. apply map_ext. intros j. now rewrite A.
    - intros i. now rewrite !A. }
  rewrite Etail. clear Etail.
  change (seq 0 (S n)) with (0%nat :: seq 1 n). cbn [filter].
  unfold read_double.
  replace (ptr c + 0 * e + 8)%nat with (ptr c + 8)%nat by lia.
  replace (ptr c + 0 * e + 7)%nat with (ptr c + 7)%nat by lia.
  destruct (filter_passes o (trunc (nth (ptr c + 8) (as_double b) 0%Q))
              (trunc (nth (ptr c + 7) (as_double b) 0%Q))).
  - cbn [app map]. f_equal. apply map_ext. intros j. f_equal. lia.
  - reflexivity.
Qed.

(** X10: a decoded "GPS5" block (before any "GPS9" sample) is emitted whole
    or not at all: the filter looks at the carried fix and precision, which no
    sample of the block changes.  When they pass, there is one row for each
    sample, in order, with the sample's own elements and the carried fix and
    precision; when they fail, there is no row. *)
Theorem X10_gps5_block_all_or_nothing o name st fi b s
    (Hdecoded : decoded b = true)
    (Hkey : key b = GPS5)
    (Hflag : use_gps9 s = false) :
  (filter_passes o (to_int (fix_ s)) (to_int (precision s)) = true ->
   map row_values (snd (process_block o name st fi b s))
   = map (sample_values b) (seq 0 (Z.to_nat (samples b)))
   /\ Forall (fun r => row_ints r = [to_int (fix_ s); to_int (precision s)])
        (snd (process_block o name st fi b s)))
  /\ (filter_passes o (to_int (fix_ s)) (to_int (precision s)) = false ->
      snd (process_block o name st fi b s) = []).
Proof.
  rewrite process_block_decoded by assumption.
  pose proof (sample_loop_gps5_rows o name b ((fi - st) / inject_Z (samples b))%Q
                (Z.to_nat (samples b)) Hkey (mk_cursor 0 st) (set_file_finish fi s) Hflag)
    as H.
  cbn zeta in H. cbn [fix_ precision set_file_finish ptr] in H.
  destruct (sample_loop _ _ _ _ _ _ _) as [[c1 s1] out]. cbn [snd] in *.
  destruct (filter_passes o (to_int (fix_ s)) (to_int (precision s))).
  - split; [intros _ | discriminate]. exact H.
  - split; [discriminate | intros _; exact H].
Qed.

(** Two samples, the carried fix 3 and precision 50, thresholds 3 and 100. *)
Lemma X10_gps5_block_all_or_nothing_witness :
  let b := Samples.gps5_block 2 (Samples.gps5_values ++ [ 46; 8; 310; 3; 3.5 ]%Q) in
  decoded b = true /\ key b = GPS5 /\ use_gps9 Samples.s0 = false
  /\ filter_passes Samples.strict_filter
       (to_int (fix_ Samples.s0)) (to_int (precision Samples.s0)) = true
  /\ map row_values (snd (process_block Samples.strict_filter "f" 0 1 b Samples.s0))
     = [ Samples.gps5_values; [ 46; 8; 310; 3; 3.5 ]%Q ].
Proof.
  intros b.
  assert (H1 : decoded b = true) by reflexivity.
  assert (H2 : key b = GPS5) by reflexivity.
  assert (H3 : use_gps9 Samples.s0 = false) by reflexivity.
  assert (H4 : filter_passes Samples.strict_filter
                 (to_int (fix_ Samples.s0)) (to_int (precision Samples.s0)) = true)
    by reflexivity.
  split; [exact H1 | split; [exact H2 | split; [exact H3 | split; [exact H4 |]]]].
  exact (proj1 (proj1 (X10_gps5_block_all_or_nothing Samples.strict_filter "f" 0 1 b
                         Samples.s0 H1 H2 H3) H4)).
Defined.

(** X11: a decoded "GPS9" block emits one row for each of its samples whose
    own fix (index 8) and precision (index 7) pass the filter, in order; the
    value columns of the row are the sample's latitude, longitude, altitude, 2D
    speed, 3D speed, fix and precision (indices 0, 1, 2, 3, 4, 8, 7). *)
Theorem X11_gps9_block_rows o name st fi b s
    (Hdecoded : decoded b = true)
    (Hkey : key b = GPS9) :
  map row_values (snd (process_block o name st fi b s))
  = map (gps9_columns b) (filter (gps9_passes o b) (seq 0 (Z.to_nat (samples b)))).
Proof.
  rewrite process_block_decoded by assumption.
  pose proof (sample_loop_gps9_rows o name b ((fi - st) / inject_Z (samples b))%Q
                (Z.to_nat (samples b)) Hkey (mk_cursor 0 st) (set_file_finish fi s)) as H.
  cbn zeta in H. cbn [ptr] in H.
  destruct (sample_loop _ _ _ _ _ _ _) as [[c1 s1] out]. cbn [snd] in *.
  exact H.
Qed.

(** Two samples with fix 3 and fix 0, thresholds 3 and 100: the first only. *)
Lemma X11_gps9_block_rows_witness :
  let b := Samples.gps9_block 2 (Samples.gps9_values 7836 45296.5 1.5 3
                                 ++ Samples.gps9_values 7836 45297 1.5 0) in
  decoded b = true /\ key b = GPS9
  /\ map row_values (snd (process_block Samples.strict_filter "f" 0 1 b Samples.s0))
     = [ [ 45.5; 7.25; 300; 2.5; 2.75; 3; 1.5 ]%Q ].
Proof.
  intros b.
  assert (H1 : decoded b = true) by reflexivity.
  assert (H2 : key b = GPS9) by reflexivity.
  split; [exact H1 | split; [exact H2 |]].
  exact (X11_gps9_block_rows Samples.strict_filter "f" 0 1 b Samples.s0 H1 H2).
Defined.

(** ** The order of the timestamps inside a file *)

Lemma StronglySorted_app {A} (R : A -> A -> Prop) (l1 l2 : list A) :
  StronglySorted R l1 -> StronglySorted R l2 ->
  (forall a b, In a l1 -> In b l2 -> R a b) ->
  StronglySorted R (l1 ++ l2).
Proof.
  induction 1 as [| a l1 S1 IH F1]; intros S2 H; [exact S2 |].
  cbn [app]. constructor.
  - apply IH; [exact S2 |]. intros x y Ix Iy. apply H; [now right | exact Iy].
  - apply Forall_app. split; [exact F1 |].
    apply Forall_forall. intros y Iy. apply H; [now left | exact Iy].
Qed.

Lemma StronglySorted_same_cts (x : Q) (l : list row) :
  (forall r, In r l -> row_cts r = x) -> StronglySorted cts_le l.
Proof.
  induction l as [| a l IH]; intros H; constructor.
  - apply IH. intros r I. apply H. now right.
  - apply Forall_forall. intros r I. unfold cts_le.
    rewrite (H a (or_introl eq_refl)), (H r (or_intror I)). apply Qle_refl.
Qed.

Lemma sample_loop_sorted o name b step (Hstep : (0 <= step)%Q) n :
  forall c s, StronglySorted cts_le (snd (sample_loop o name b step n c s)).
Proof.
  induction n as [| n IH]; intros c s; [constructor |].
  cbn [sample_loop].
  pose proof (sample_time o name b step c s) as H1.
  destruct (sample o name b step c s) as [[c1 s1] out1].
  destruct H1 as (F1 & _ & N1 & R1).
  specialize (IH c1 s1).
  pose proof (sample_loop_time o name b step Hstep n c1 s1
                (now c1 + (inject_Z (Z.of_nat n) - 1) * step)%Q (Qle_refl _)) as H2.
  destruct (sample_loop o name b step n c1 s1) as [[c2 s2] out2].
  destruct H2 as (_ & _ & R2). cbn [snd] in *.
  apply StronglySorted_app; [now apply (StronglySorted_same_cts _ _ R1) | exact IH |].
  intros x y Ix Iy. unfold cts_le. rewrite (R1 x Ix).
  destruct (R2 y Iy) as [L _]. rewrite F1 in L.
  destruct N1 as [E | E]; rewrite E in L; lra.
Qed.

Lemma process_block_sorted o name st fi b s :
  (st <= fi)%Q -> StronglySorted cts_le (snd (process_block o name st fi b s)).
Proof.
  intros Hsf. destruct (decoded b) eqn:D.
  - rewrite process_block_decoded by assumption.
    destruct (Z.to_nat (samples b)) as [| n] eqn:N; [constructor |].
    assert (Hstep : (0 <= (fi - st) / inject_Z (samples b))%Q).
    { apply Qle_shift_div_l; [| lra].
      change 0%Q with (inject_Z 0). rewrite <- Zlt_Qlt. lia. }
    pose proof (sample_loop_sorted o name b _ Hstep (S n) (mk_cursor 0 st)
                  (set_file_finish fi s)) as H.
    destruct (sample_loop _ _ _ _ _ _ _) as [[c1 s1] out]. exact H.
  - rewrite process_block_not_decoded by assumption. constructor.
Qed.

Lemma block_loop_sorted o name st fi bs :
  (st <= fi)%Q ->
  Nat.leb (List.length (filter is_position bs)) 1 = true ->
  forall s, StronglySorted cts_le (snd (block_loop o name st fi bs s)).
Proof.
  intros Hsf. induction bs as [| b rest IH]; intros H1 s; [constructor |].
  cbn [block_loop].
  pose proof (process_block_sorted o name st fi b s Hsf) as Sb.
  pose proof (process_block_no_rows o name st fi b s) as Nb.
  destruct (process_block o name st fi b s) as [s1 out1].
  cbn [filter] in H1. cbn [snd] in *.
  destruct (is_position b).
  - assert (Hrest : forallb (fun x => negb (is_position x)) rest = true).
    { cbn [List.length] in H1.
      destruct (filter is_position rest) as [| x l] eqn:F; [| discriminate H1].
      apply forallb_forall. intros x Ix.
      destruct (is_position x) eqn:Px; [| reflexivity].
      assert (I : In x (filter is_position rest)) by (apply filter_In; now split).
      rewrite F in I. destruct I. }
    pose proof (block_loop_no_rows o name st fi rest Hrest s1) as E.
    destruct (block_loop o name st fi rest s1) as [s2 out2]. cbn [snd] in *.
    subst out2. now rewrite app_nil_r.
  - specialize (IH H1 s1). rewrite (Nb eq_refl).
    destruct (block_loop o name st fi rest s1) as [s2 out2]. exact IH.
Qed.

Lemma windows_ordered_cons lo p rest :
  windows_ordered lo (p :: rest) = true <->
  (lo <= start p)%Q /\ (start p <= finish p)%Q /\ windows_ordered (finish p) rest = true.
Proof.
  cbn [windows_ordered]. rewrite !andb_true_iff, !Qle_bool_iff. tauto.
Qed.

Lemma payload_loop_sorted o name ps :
  forall lo s,
    windows_ordered lo ps = true ->
    forallb one_position_block ps = true ->
    StronglySorted cts_le (snd (payload_loop o name ps s))
    /\ (forall r, In r (snd (payload_loop o name ps s)) ->
          ((file_start s + lo) * 1000 <= row_cts r)%Q).
Proof.
  induction ps as [| p rest IH]; intros lo s W O.
  - split; [constructor | intros r []].
  - apply windows_ordered_cons in W as (W1 & W2 & W3).
    cbn [forallb] in O. apply andb_prop in O as [O1 O2].
    cbn [payload_loop].
    destruct (negb (payload_ok p)); [split; [constructor | intros r []] |].
    destruct (negb (is_ok (ret (set_ret (time_ret p) s))));
      [split; [constructor | intros r []] |].
    destruct (negb (is_ok (ret (set_ret (init_ret p) (set_ret (time_ret p) s)))));
      [split; [constructor | intros r []] |].
    set (s2 := set_ret (init_ret p) (set_ret (time_ret p) s)).
    pose proof (block_loop_sorted o name (start p) (finish p) (blocks p) W2 O1 s2) as S1.
    pose proof (block_loop_time o name (start p) (finish p) (blocks p) W2 s2) as T1.
    pose proof (block_loop_frame o name (start p) (finish p) (blocks p) s2) as (F1 & _).
    destruct (block_loop o name (start p) (finish p) (blocks p) s2) as [s3 out1].
    cbn [fst snd] in *. change (file_start s2) with (file_start s) in *.
    destruct (IH (finish p) s3 W3 O2) as [S2 L2].
    destruct (payload_loop o name rest s3) as [s4 out2]. cbn [snd] in *.
    rewrite F1 in L2. split.
    + apply StronglySorted_app; [exact S1 | exact S2 |].
      intros x y Ix Iy. unfold cts_le.
      destruct (T1 x Ix) as [_ U]. specialize (L2 y Iy). lra.
    + intros r I. apply in_app_or in I as [I | I].
      * destruct (T1 r I) as [L _]. lra.
      * specialize (L2 r I). lra.
Qed.

(** X13: in exact arithmetic, in a file whose payload intervals follow one
    another ([0 <= start <= finish <= next start]) and whose payloads hold at
    most one position block each, the timestamps of the rows never decrease
    from one row to the next.  (With rounded sums the local time of the last
    sample can pass [finish] by a few units in the last place, so that the
    statement can fail for intervals that narrow.) *)
Theorem X13_file_timestamps_sorted o f s
    (Hwindows : windows_ordered 0 (payloads f) = true)
    (Hblocks : forallb one_position_block (payloads f) = true) :
  StronglySorted cts_le (snd (process_file o f s)).
Proof.
  unfold process_file.
  destruct (payload_loop_sorted o (mp4filename f) (payloads f) 0 (set_file_finish 0 s)
              Hwindows Hblocks) as [S _].
  destruct (payload_loop _ _ _ _) as [s1 out]. cbn [snd] in S.
  destruct (is_ok (ret s1)); exact S.
Qed.

Lemma X13_file_timestamps_sorted_witness :
  windows_ordered 0 (payloads Samples.file_a') = true
  /\ forallb one_position_block (payloads Samples.file_a') = true
  /\ StronglySorted cts_le (snd (process_file Samples.no_filter Samples.file_a' Samples.s0)).
Proof.
  assert (H1 : windows_ordered 0 (payloads Samples.file_a') = true) by reflexivity.
  assert (H2 : forallb one_position_block (payloads Samples.file_a') = true) by reflexivity.
  split; [exact H1 | split; [exact H2 |]].
  exact (X13_file_timestamps_sorted Samples.no_filter Samples.file_a' Samples.s0 H1 H2).
Defined.

(** The rows of a block of a payload with [start < finish] are stamped
    before the end of the interval. *)
Lemma process_block_time_strict o name st fi b s :
  (st < fi)%Q ->
  forall r, In r (snd (process_block o name st fi b s)) ->
    (row_cts r < (file_start s + fi) * 1000)%Q.
Proof.
  intros Hsf. destruct (decoded b) eqn:D.
  - rewrite process_block_decoded by assumption.
    set (step := ((fi - st) / inject_Z (samples b))%Q).
    destruct (Z.to_nat (samples b)) as [| n] eqn:N.
    + cbn [sample_loop snd]. intros r [].
    + assert (HposQ : (0 < inject_Z (samples b))%Q).
      { change 0%Q with (inject_Z 0). rewrite <- Zlt_Qlt. lia. }
      assert (Hstep : (0 < step)%Q).
      { unfold step. apply Qlt_shift_div_l; [exact HposQ | lra]. }
      assert (Hmul : (inject_Z (samples b) * step == fi - st)%Q).
      { unfold step. apply Qmult_div_r. lra. }
      assert (HN : inject_Z (Z.of_nat (S n)) = inject_Z (samples b)).
      { rewrite <- N. rewrite Z2Nat.id by lia. reflexivity. }
      pose proof (sample_loop_time o name b step (Qlt_le_weak _ _ Hstep) (S n)
                    (mk_cursor 0 st) (set_file_finish fi s) (fi - step)%Q) as H.
      cbn [now] in H. rewrite HN in H.
      assert (Hhi : (st + (inject_Z (samples b) - 1) * step <= fi - step)%Q) by lra.
      specialize (H Hhi).
      destruct (sample_loop o name b step (S n) _ _) as [[c' s'] out].
      destruct H as (_ & _ & R). cbn [snd file_start set_file_finish] in *.
      intros r I. destruct (R r I) as [_ U]. lra.
  - rewrite process_block_not_decoded by assumption. intros r [].
Qed.

(** X14: every row of a payload with [start <= finish] is stamped inside the
    payload's interval, shifted by the time base of the file: between
    [(file_start + start) * 1000] and [(file_start + finish) * 1000]; and when
    [start < finish] it is stamped before the end of the interval. *)
Theorem X14_rows_inside_payload_interval o name st fi bs
    (Hinterval : (st <= fi)%Q) :
  forall s r, In r (snd (block_loop o name st fi bs s)) ->
    ((file_start s + st) * 1000 <= row_cts r
     /\ row_cts r <= (file_start s + fi) * 1000)%Q
    /\ ((st < fi)%Q -> (row_cts r < (file_start s + fi) * 1000)%Q).
Proof.
  induction bs as [| b rest IH]; intros s r; [intros [] |].
  cbn [block_loop].
  pose proof (process_block_time o name st fi b s Hinterval r) as R1.
  pose proof (fun L => process_block_time_strict o name st fi b s L r) as R1'.
  pose proof (process_block_frame o name st fi b s) as (F1 & _).
  destruct (process_block o name st fi b s) as [s1 out1].
  specialize (IH s1 r).
  destruct (block_loop o name st fi rest s1) as [s2 out2].
  cbn [fst snd] in *. intros Hr. apply in_app_or in Hr as [Hr | Hr].
  - split; [now apply R1 | intros L; now apply R1'].
  - rewrite <- F1. now apply IH.
Qed.

Lemma X14_rows_inside_payload_interval_witness :
  let bs := [Samples.gps5_block 5 (List.concat (repeat Samples.gps5_values 5))] in
  (5 <= 10)%Q
  /\ forall r, In r (snd (block_loop Samples.no_filter "f" 5 10 bs Samples.s0)) ->
       ((file_start Samples.s0 + 5) * 1000 <= row_cts r
        /\ row_cts r < (file_start Samples.s0 + 10) * 1000)%Q.
Proof.
  intros bs.
  assert (H : (5 <= 10)%Q) by (vm_compute; discriminate).
  split; [exact H |]. intros r I.
  destruct (X14_rows_inside_payload_interval Samples.no_filter "f" 5 10 bs H
              Samples.s0 r I) as [[L _] U].
  split; [exact L | apply U; vm_compute; reflexivity].
Defined.

(** ** The time base *)

Lemma process_file_time_base o f s :
  times_ok 0 (payloads f) = true ->
  (file_start s <= file_start (snd (fst (process_file o f s))))%Q.
Proof.
  intros T. rewrite process_file_frame.
  pose proof (file_end_ge (payloads f) 0 0 T (Qle_refl 0)) as G.
  destruct (fst (fst (process_file o f s))); lra.
Qed.

(** X15: with well-formed payload timing in every file ([0 <= start <=
    finish], finish times that do not decrease), the time base never
    decreases over a run, however the run ends. *)
Theorem X15_time_base_never_decreases o fs
    (Htimes : Forall (fun f => times_ok 0 (payloads f) = true) fs) :
  forall first s,
    (file_start s <= file_start (snd (fst (file_loop o first fs s))))%Q.
Proof.
  induction Htimes as [| f rest Hf _ IH]; intros first s; [apply Qle_refl |].
  cbn [file_loop].
  destruct (negb (mp4handle_ok f)); [apply Qle_refl |].
  destruct (Qle_bool (metadataduration f) 0); [apply Qle_refl |].
  pose proof (process_file_time_base o f s Hf) as H1.
  destruct (process_file o f s) as [[go_on s1] out]. cbn [fst snd] in H1.
  destruct go_on; [| exact H1].
  specialize (IH false s1).
  destruct (file_loop o false rest s1) as [[e s2] out2]. cbn [fst snd] in *. lra.
Qed.

Lemma X15_time_base_never_decreases_witness :
  Forall (fun f => times_ok 0 (payloads f) = true) [Samples.file_a'; Samples.file_b]
  /\ (file_start Samples.s0
      <= file_start (snd (fst (file_loop Samples.no_filter true
                                 [Samples.file_a'; Samples.file_b] Samples.s0))))%Q.
Proof.
  assert (H : Forall (fun f => times_ok 0 (payloads f) = true)
                [Samples.file_a'; Samples.file_b])
    by (repeat constructor).
  split; [exact H |].
  exact (X15_time_base_never_decreases Samples.no_filter _ H true Samples.s0).
Defined.

(** ** From the clock-sync text to the date column *)

Lemma century_round_trip_holds : century_round_trip = true.
Proof. vm_compute. reflexivity. Qed.

Lemma civil_round_trip (yy mo dd : Z) :
  0 <= yy <= 99 -> 1 <= mo <= 12 -> 1 <= dd <= days_in_month (2000 + yy) mo ->
  LibC.civil_from_days (LibC.days_from_civil (2000 + yy) mo 1 + (dd - 1))
  = (2000 + yy, mo, dd).
Proof.
  intros Hy Hm Hd.
  assert (Hd31 : dd <= 31).
  { unfold days_in_month in Hd.
    destruct (mo =? 2); [destruct (is_leap (2000 + yy)) |
                         destruct ((mo =? 4) || (mo =? 6) || (mo =? 9) || (mo =? 11))]; lia. }
  pose proof century_round_trip_holds as C. unfold century_round_trip in C.
  assert (Iy : In (Z.to_nat yy) (seq 0 100)) by (apply in_seq; lia).
  assert (Im : In (Z.to_nat mo) (seq 1 12)) by (apply in_seq; lia).
  assert (Id : In (Z.to_nat dd) (seq 1 31)) by (apply in_seq; lia).
  rewrite forallb_forall in C. specialize (C (Z.to_nat yy) Iy).
  rewrite forallb_forall in C. specialize (C (Z.to_nat mo) Im).
  rewrite forallb_forall in C. specialize (C (Z.to_nat dd) Id).
  unfold date_round_trip in C.
  rewrite !Z2Nat.id in C by lia.
  apply orb_prop in C as [C | C].
  - apply negb_true_iff, Z.leb_gt in C. lia.
  - destruct (LibC.civil_from_days _) as [[y m] d].
    apply andb_prop in C as [C C3]. apply andb_prop in C as [C1 C2].
    apply Z.eqb_eq in C1, C2, C3. congruence.
Qed.

Lemma char_to_int_digit (d : Z) :
  char_to_int (LibC.digit_char d) = 48 + d mod 10.
Proof.
  unfold LibC.digit_char.
  assert (B : 0 <= d mod 10 < 10) by (apply Z.mod_pos_bound; lia).
  assert (C : d mod 10 = 0 \/ d mod 10 = 1 \/ d mod 10 = 2 \/ d mod 10 = 3
              \/ d mod 10 = 4 \/ d mod 10 = 5 \/ d mod 10 = 6 \/ d mod 10 = 7
              \/ d mod 10 = 8 \/ d mod 10 = 9) by lia.
  repeat (destruct C as [-> | C]; [reflexivity |]). rewrite C. reflexivity.
Qed.

Lemma two_digit_value (n : Z) :
  0 <= n <= 99 ->
  10 * (48 + (n / 10) mod 10 - 48) + (48 + n mod 10 - 48) = n.
Proof. intros H. Z.div_mod_to_equations. lia. Qed.

Lemma gpsu_tm_of_text (yy mo dd hh mi ss fff : Z) :
  0 <= yy <= 99 -> 0 <= mo <= 99 -> 0 <= dd <= 99 ->
  0 <= hh <= 99 -> 0 <= mi <= 99 -> 0 <= ss <= 99 ->
  gpsu_tm (gpsu_text yy mo dd hh mi ss fff)
  = LibC.mk_tm ss mi hh dd (mo - 1) (yy + 100).
Proof.
  intros Hy Hm Hd Hh Hi Hs.
  unfold gpsu_tm, two_digits, char_at, gpsu_text.
  cbn [LibC.zero_padded String.append String.get Nat.add].
  rewrite !char_to_int_digit.
  rewrite !two_digit_value by assumption. reflexivity.
Qed.

Lemma gpsu_millis_of_text (yy mo dd hh mi ss fff : Z) :
  0 <= fff <= 999 ->
  (milliseconds (parse_gpsu (gpsu_text yy mo dd hh mi ss fff)) == inject_Z fff)%Q.
Proof.
  intros Hf.
  unfold parse_gpsu, char_at, gpsu_text. cbn [milliseconds].
  cbn [LibC.zero_padded String.append String.get Nat.add].
  rewrite !char_to_int_digit.
  change 100%Q with (inject_Z 100). change 10%Q with (inject_Z 10).
  rewrite <- !inject_Z_mult, <- !inject_Z_plus.
  apply inject_Z_injective.
  Z.div_mod_to_equations. lia.
Qed.

Lemma gmtime_timegm (yy mo dd hh mi ss : Z) :
  0 <= yy <= 99 -> 1 <= mo <= 12 -> 1 <= dd <= days_in_month (2000 + yy) mo ->
  0 <= hh <= 23 -> 0 <= mi <= 59 -> 0 <= ss <= 59 ->
  LibC.gmtime (LibC.timegm (LibC.mk_tm ss mi hh dd (mo - 1) (yy + 100)))
  = LibC.mk_tm ss mi hh dd (mo - 1) (yy + 100).
Proof.
  intros Hy Hm Hd Hh Hi Hs.
  unfold LibC.timegm.
  cbn [LibC.tm_sec LibC.tm_min LibC.tm_hour LibC.tm_mday LibC.tm_mon LibC.tm_year].
  replace (1900 + (yy + 100) + (mo - 1) / 12) with (2000 + yy)
    by (Z.div_mod_to_equations; lia).
  replace ((mo - 1) mod 12 + 1) with mo by (Z.div_mod_to_equations; lia).
  set (days := LibC.days_from_civil (2000 + yy) mo 1 + (dd - 1)).
  pose proof (civil_round_trip yy mo dd Hy Hm Hd) as C. fold days in C.
  unfold LibC.gmtime.
  replace ((((days * 24 + hh) * 60 + mi) * 60 + ss) / 86400) with days
    by (Z.div_mod_to_equations; lia).
  rewrite C.
  replace ((((days * 24 + hh) * 60 + mi) * 60 + ss) mod 86400)
    with (hh * 3600 + mi * 60 + ss) by (Z.div_mod_to_equations; lia).
  f_equal; Z.div_mod_to_equations; lia.
Qed.

Lemma sample_loop_gpsu o name b step n c s :
  key b = GPSU ->
  sample_loop o name b step (S n) c s = (c, set_gpsu (parse_gpsu (as_string b)) s, []).
Proof.
  intros K. revert s. induction n as [| n IH]; intros s.
  - cbn [sample_loop]. unfold sample. now rewrite K.
  - change (sample_loop o name b step (S (S n)) c s)
      with (let '(c1, s1, out1) := sample o name b step c s in
            let '(c2, s2, out2) := sample_loop o name b step (S n) c1 s1 in
            (c2, s2, out1 ++ out2)).
    unfold sample at 1. rewrite K. rewrite IH. reflexivity.
Qed.

Lemma valid_gpsu_ranges (yy mo dd hh mi ss fff : Z) :
  valid_gpsu yy mo dd hh mi ss fff = true ->
  0 <= yy <= 99 /\ 1 <= mo <= 12 /\ 1 <= dd <= days_in_month (2000 + yy) mo
  /\ 0 <= hh <= 23 /\ 0 <= mi <= 59 /\ 0 <= ss <= 59 /\ 0 <= fff <= 999.
Proof.
  unfold valid_gpsu. rewrite !andb_true_iff, !Z.leb_le. tauto.
Qed.

Lemma days_in_month_le_31 (y m : Z) : days_in_month y m <= 31.
Proof.
  unfold days_in_month.
  destruct (m =? 2); [destruct (is_leap y) |
                      destruct ((m =? 4) || (m =? 6) || (m =? 9) || (m =? 11))]; lia.
Qed.

(** X16: a decoded clock-sync block whose text is "YYMMDDhhmmss.fff", for a
    date of the years 2000 to 2099 and a time of the day, sets the clock to
    that instant, whatever the clock was and whatever the number of samples:
    the date column printed from it reads 20YY-MM-DDThh:mm:ss and its
    milliseconds are fff.  The block itself prints nothing. *)
Theorem X16_gpsu_text_to_date_column o name st fi b s (yy mo dd hh mi ss fff : Z)
    (Hvalid : valid_gpsu yy mo dd hh mi ss fff = true)
    (Hdecoded : decoded b = true)
    (Hsamples : 0 < samples b)
    (Hkey : key b = GPSU)
    (Htext : as_string b = gpsu_text yy mo dd hh mi ss fff) :
  snd (process_block o name st fi b s) = []
  /\ LibC.gmtime (time (gpsu (fst (process_block o name st fi b s))))
     = LibC.mk_tm ss mi hh dd (mo - 1) (yy + 100)
  /\ date_seconds (gpsu (fst (process_block o name st fi b s)))
     = (LibC.zero_padded 4 (2000 + yy) ++ "-" ++ LibC.zero_padded 2 mo ++ "-"
        ++ LibC.zero_padded 2 dd ++ "T" ++ LibC.zero_padded 2 hh ++ ":"
        ++ LibC.zero_padded 2 mi ++ ":" ++ LibC.zero_padded 2 ss)%string
  /\ date_millis (gpsu (fst (process_block o name st fi b s))) = fff.
Proof.
  destruct (valid_gpsu_ranges _ _ _ _ _ _ _ Hvalid) as (Hy & Hm & Hd & Hh & Hi & Hs & Hf).
  pose proof (days_in_month_le_31 (2000 + yy) mo) as D31.
  rewrite process_block_decoded by assumption.
  destruct (Z.to_nat (samples b)) as [| n] eqn:N; [lia |].
  rewrite sample_loop_gpsu by assumption. cbn [fst snd gpsu set_gpsu].
  rewrite Htext.
  assert (G : LibC.gmtime (time (parse_gpsu (gpsu_text yy mo dd hh mi ss fff)))
              = LibC.mk_tm ss mi hh dd (mo - 1) (yy + 100)).
  { unfold parse_gpsu. cbn [time].
    rewrite gpsu_tm_of_text by lia. now apply gmtime_timegm. }
  split; [reflexivity | split; [exact G | split]].
  - unfold date_seconds. rewrite G. unfold LibC.strftime_iso.
    cbn [LibC.tm_sec LibC.tm_min LibC.tm_hour LibC.tm_mday LibC.tm_mon LibC.tm_year].
    replace (1900 + (yy + 100)) with (2000 + yy) by lia.
    replace (mo - 1 + 1) with mo by lia. reflexivity.
  - unfold date_millis.
    rewrite (trunc_comp _ _ (gpsu_millis_of_text yy mo dd hh mi ss fff Hf)).
    apply trunc_inject_Z.
Qed.

(** The leap day 2024-02-29T23:59:59.042, in a block of two samples. *)
Lemma X16_gpsu_text_to_date_column_witness :
  let b := mk_block GPSU 2 16 1 true GPMF_OK (gpsu_text 24 2 29 23 59 59 42) [] [] [] in
  valid_gpsu 24 2 29 23 59 59 42 = true
  /\ decoded b = true /\ 0 < samples b /\ key b = GPSU
  /\ as_string b = "240229235959.042"%string
  /\ date_seconds (gpsu (fst (process_block Samples.no_filter "f" 0 1 b Samples.s0)))
     = "2024-02-29T23:59:59"%string
  /\ date_millis (gpsu (fst (process_block Samples.no_filter "f" 0 1 b Samples.s0))) = 42.
Proof.
  intros b.
  assert (H1 : valid_gpsu 24 2 29 23 59 59 42 = true) by reflexivity.
  assert (H2 : decoded b = true) by reflexivity.
  assert (H3 : 0 < samples b) by reflexivity.
  assert (H4 : key b = GPSU) by reflexivity.
  destruct (X16_gpsu_text_to_date_column Samples.no_filter "f" 0 1 b Samples.s0
              24 2 29 23 59 59 42 H1 H2 H3 H4 eq_refl) as (_ & _ & E3 & E4).
  split; [exact H1 | split; [exact H2 | split; [exact H3 | split; [exact H4 |]]]].
  split; [reflexivity | split; [exact E3 | exact E4]].
Defined.

(** ** The carried state over the blocks of a payload *)

(** What one sample does to the flag and to the carried fix and precision. *)
Lemma sample_carried o name b step c s :
  let s' := snd (fst (sample o name b step c s)) in
  use_gps9 s' = (use_gps9 s || match key b with GPS9 => true | _ => false end)
  /\ fix_ s' = match key b with GPSF => hd 0 (as_uint32 b) | _ => fix_ s end
  /\ precision s' = match key b with GPSP => hd 0 (as_uint16 b) | _ => precision s end.
Proof.
  unfold sample, gps5_sample, gps9_sample.
  destruct (key b); cbn zeta; cbn [fst snd use_gps9 fix_ precision set_gpsu set_fix
                                    set_precision];
    try (rewrite orb_false_r; repeat split; reflexivity).
  - destruct (use_gps9 s) eqn:E; cbn; rewrite ?E; repeat split; reflexivity.
  - destruct (filter_passes o _ _); [destruct (Qeq_bool 0 (now c)) |];
      cbn; rewrite orb_true_r; repeat split; reflexivity.
Qed.

Lemma sample_loop_carried o name b step n :
  forall c s,
    let s' := snd (fst (sample_loop o name b step (S n) c s)) in
    use_gps9 s' = (use_gps9 s || match key b with GPS9 => true | _ => false end)
    /\ fix_ s' = match key b with GPSF => hd 0 (as_uint32 b) | _ => fix_ s end
    /\ precision s' = match key b with GPSP => hd 0 (as_uint16 b) | _ => precision s end.
Proof.
  induction n as [| n IH]; intros c s.
  - pose proof (sample_carried o name b step c s) as H. cbn zeta in *.
    cbn [sample_loop]. destruct (sample o name b step c s) as [[c1 s1] out1].
    cbn [fst snd] in *. exact H.
  - pose proof (sample_carried o name b step c s) as H. cbn zeta in *.
    change (sample_loop o name b step (S (S n)) c s)
      with (let '(c1, s1, out1) := sample o name b step c s in
            let '(c2, s2, out2) := sample_loop o name b step (S n) c1 s1 in
            (c2, s2, out1 ++ out2)).
    destruct (sample o name b step c s) as [[c1 s1] out1]. cbn [fst snd] in H.
    specialize (IH c1 s1).
    destruct (sample_loop o name b step (S n) c1 s1) as [[c2 s2] out2].
    cbn [fst snd] in *. destruct H as (H1 & H2 & H3). destruct IH as (I1 & I2 & I3).
    rewrite I1, I2, I3, H1, H2, H3.
    destruct (key b); rewrite ?orb_false_r, ?orb_true_r; repeat split; reflexivity.
Qed.

Lemma process_block_carried o name st fi b s :
  let s' := fst (process_block o name st fi b s) in
  use_gps9 s' = (use_gps9 s || sets_flag b)
  /\ fix_ s' = carried_fix (fix_ s) [b]
  /\ precision s' = carried_precision (precision s) [b].
Proof.
  unfold sets_flag, carried_fix, carried_precision. cbn [fold_left].
  destruct (decoded b) eqn:D.
  - rewrite process_block_decoded by assumption.
    destruct (Z.to_nat (samples b)) as [| n] eqn:N.
    + assert (E : (0 <? samples b) = false) by (apply Z.ltb_ge; lia).
      rewrite E. cbn. rewrite orb_false_r. repeat split; reflexivity.
    + assert (E : (0 <? samples b) = true) by (apply Z.ltb_lt; lia).
      rewrite E. cbn [andb].
      pose proof (sample_loop_carried o name b ((fi - st) / inject_Z (samples b))%Q n
                    (mk_cursor 0 st) (set_file_finish fi s)) as H.
      cbn zeta in H.
      destruct (sample_loop _ _ _ _ _ _ _) as [[c1 s1] out]. cbn [fst snd] in *.
      cbn [use_gps9 fix_ precision set_file_finish] in H.
      destruct H as (H1 & H2 & H3). rewrite H1, H2, H3.
      destruct (key b); repeat split; reflexivity.
  - rewrite process_block_not_decoded by assumption. cbn.
    rewrite orb_false_r. repeat split; reflexivity.
Qed.

(** X17: over the blocks of a payload the flag [use_gps9] is set exactly by a
    decoded "GPS9" block with a sample; no other block sets it and none clears
    it. *)
Theorem X17_flag_set_by_gps9_only o name st fi bs :
  forall s,
    use_gps9 (fst (block_loop o name st fi bs s)) = (use_gps9 s || existsb sets_flag bs).
Proof.
  induction bs as [| b rest IH]; intros s.
  - cbn. now rewrite orb_false_r.
  - cbn [block_loop existsb].
    pose proof (process_block_carried o name st fi b s) as H. cbn zeta in H.
    destruct (process_block o name st fi b s) as [s1 out1]. cbn [fst] in H.
    specialize (IH s1).
    destruct (block_loop o name st fi rest s1) as [s2 out2]. cbn [fst] in *.
    destruct H as (H1 & _). now rewrite IH, H1, orb_assoc.
Qed.

(** X18: after the blocks of a payload the carried fix is the first element
    of the last decoded "GPSF" block, and the carried precision the first
    element of the last decoded "GPSP" block; without such a block they keep
    the value they had before the payload.  Position and clock-sync blocks
    never change them. *)
Theorem X18_carried_fix_latest_wins o name st fi bs :
  forall s,
    fix_ (fst (block_loop o name st fi bs s)) = carried_fix (fix_ s) bs
    /\ precision (fst (block_loop o name st fi bs s))
       = carried_precision (precision s) bs.
Proof.
  induction bs as [| b rest IH]; intros s.
  - split; reflexivity.
  - cbn [block_loop].
    pose proof (process_block_carried o name st fi b s) as H. cbn zeta in H.
    destruct (process_block o name st fi b s) as [s1 out1]. cbn [fst] in H.
    specialize (IH s1).
    destruct (block_loop o name st fi rest s1) as [s2 out2]. cbn [fst] in *.
    destruct H as (_ & H2 & H3). destruct IH as (I2 & I3).
    rewrite I2, I3, H2, H3. split; reflexivity.
Qed.

(** ** The timestamps of the rows of a block *)

Lemma Forall2_Qeq_map_ext (f g : nat -> Q) (L : list nat) :
  (forall i, f i == g i)%Q ->
  forall l, Forall2 Qeq l (map f L) -> Forall2 Qeq l (map g L).
Proof.
  intros E. induction L as [| i L IH]; intros l H; inversion H; subst; cbn [map].
  - constructor.
  - constructor; [now rewrite <- E | now apply IH].
Qed.

Lemma filter_none {A} (f : A -> bool) (l : list A) :
  (forall x, f x = false) -> filter f l = [].
Proof.
  intros H. induction l as [| a l IH]; [reflexivity |].
  cbn [filter]. now rewrite H.
Qed.

(** One sample of an active position block: the cursor moves on by one
    sample, and a row is stamped with the local time of the cursor. *)
Lemma sample_active o name b step c s :
  key b = GPS9 \/ (key b = GPS5 /\ use_gps9 s = false) ->
  let '(c1, s1, out1) := sample o name b step c s in
  c1 = mk_cursor (ptr c + Z.to_nat (elements b)) (now c + step)%Q
  /\ file_start s1 = file_start s
  /\ (key b = GPS9 \/ (key b = GPS5 /\ use_gps9 s1 = false))
  /\ (forall c', sample_emits o b c' s1 = sample_emits o b c' s)
  /\ map row_cts out1
     = if sample_emits o b c s then [((file_start s + now c) * 1000)%Q] else [].
Proof.
  intros [K | [K G]]; unfold sample, sample_emits; rewrite K.
  - unfold gps9_sample.
    destruct (filter_passes o (trunc (read_double b c 8)) (trunc (read_double b c 7)));
      [destruct (Qeq_bool 0 (now c)) |];
      (split; [reflexivity | split; [reflexivity | split; [now left |
        split; [reflexivity | reflexivity]]]]).
  - rewrite G. unfold gps5_sample. cbn [negb andb].
    destruct (filter_passes o (to_int (fix_ s)) (to_int (precision s))) eqn:F;
      (split; [reflexivity | split; [reflexivity | split; [now right |
        split; [intros c'; cbn [use_gps9 fix_ precision set_gpsu];
                now rewrite G, F |
                reflexivity]]]]).
Qed.

Lemma sample_loop_active_cts o name b step n :
  forall c s,
    key b = GPS9 \/ (key b = GPS5 /\ use_gps9 s = false) ->
    Forall2 Qeq
      (map row_cts (snd (sample_loop o name b step n c s)))
      (map (fun i => ((file_start s + (now c + inject_Z (Z.of_nat i) * step)) * 1000)%Q)
         (filter (fun i => sample_emits o b
                             (mk_cursor (ptr c + i * Z.to_nat (elements b)) 0) s)
            (seq 0 n))).
Proof.
  induction n as [| n IH]; intros c s A; [constructor |].
  cbn [sample_loop].
  pose proof (sample_active o name b step c s A) as H.
  destruct (sample o name b step c s) as [[c1 s1] out1].
  destruct H as (Hc & Hf & A1 & Hs & Ho).
  specialize (IH c1 s1 A1).
  destruct (sample_loop o name b step n c1 s1) as [[c2 s2] out2]. cbn [snd] in *.
  rewrite map_app, Ho.
  change (seq 0 (S n)) with (0%nat :: seq 1 n). cbn [filter].
  assert (E0 : sample_emits o b (mk_cursor (ptr c + 0 * Z.to_nat (elements b)) 0) s
               = sample_emits o b c s).
  { unfold sample_emits, read_double. cbn [ptr].
    replace (ptr c + 0 * Z.to_nat (elements b))%nat with (ptr c) by lia. reflexivity. }
  rewrite E0.
  assert (Tail :
    Forall2 Qeq (map row_cts out2)
      (map (fun i => ((file_start s + (now c + inject_Z (Z.of_nat i) * step)) * 1000)%Q)
         (filter (fun i => sample_emits o b
                             (mk_cursor (ptr c + i * Z.to_nat (elements b)) 0) s)
            (seq 1 n)))).
  { rewrite filter_seq_succ, map_map.
    rewrite (filter_ext _ (fun i => sample_emits o b
                             (mk_cursor (ptr c1 + i * Z.to_nat (elements b)) 0) s1)).
    - revert IH. apply Forall2_Qeq_map_ext. intros i.
      rewrite Hf, Hc. cbn [now]. rewrite inject_Z_succ. ring.
    - intros i. rewrite Hs, Hc. cbn [ptr]. unfold sample_emits, read_double. cbn [ptr].
      replace (ptr c + S i * Z.to_nat (elements b))%nat
        with (ptr c + Z.to_nat (elements b) + i * Z.to_nat (elements b))%nat by lia.
      reflexivity. }
  destruct (sample_emits o b c s).
  - cbn [app map]. constructor; [| exact Tail].
    change (inject_Z (Z.of_nat 0)) with 0%Q. ring.
  - exact Tail.
Qed.

(** X19: the rows of a decoded block are stamped by the position of their
    sample in the block, not by the number of rows emitted before them: the
    row of sample [i] carries [(file_start + start + i * step) * 1000], with
    [step = (finish - start) / samples], and the rows are those of the samples
    that pass the filter, in order. *)
Theorem X19_rows_stamped_by_sample_index o name st fi b s
    (Hdecoded : decoded b = true) :
  Forall2 Qeq
    (map row_cts (snd (process_block o name st fi b s)))
    (map (fun i => ((file_start s
                     + (st + inject_Z (Z.of_nat i) * ((fi - st) / inject_Z (samples b))))
                    * 1000)%Q)
       (filter (fun i => sample_emits o b (mk_cursor (i * Z.to_nat (elements b)) 0) s)
          (seq 0 (Z.to_nat (samples b))))).
Proof.
  rewrite process_block_decoded by assumption.
  set (step := ((fi - st) / inject_Z (samples b))%Q).
  set (n := Z.to_nat (samples b)).
  destruct (key b) eqn:K.
  1, 2, 3, 6:
    (assert (P : is_position b = false) by (unfold is_position; now rewrite K);
     pose proof (sample_loop_no_rows o name b step n P (mk_cursor 0 st)
                   (set_file_finish fi s)) as E;
     destruct (sample_loop _ _ _ _ _ _ _) as [[c1 s1] out]; cbn [snd] in *; subst out;
     rewrite filter_none; [constructor |];
     intros i; unfold sample_emits; now rewrite K).
  - destruct (use_gps9 s) eqn:G.
    + rewrite sample_loop_gps5_ignored by assumption. cbn [snd map].
      rewrite filter_none; [constructor |].
      intros i. unfold sample_emits. now rewrite K, G.
    + pose proof (sample_loop_active_cts o name b step n (mk_cursor 0 st)
                    (set_file_finish fi s) (or_intror (conj K G))) as H.
      destruct (sample_loop _ _ _ _ _ _ _) as [[c1 s1] out]. exact H.
  - pose proof (sample_loop_active_cts o name b step n (mk_cursor 0 st)
                  (set_file_finish fi s) (or_introl K)) as H.
    destruct (sample_loop _ _ _ _ _ _ _) as [[c1 s1] out]. exact H.
Qed.

(** Three "GPS9" samples in a payload [0, 3) with fix 3, 0 and 3, filtered
    with [--min_fix=3]: rows at 0 and at 2000, none at 1000. *)
Lemma X19_rows_stamped_by_sample_index_witness :
  let b := Samples.gps9_block 3 (Samples.gps9_values 7836 45296 1.5 3
                                 ++ Samples.gps9_values 7836 45297 1.5 0
                                 ++ Samples.gps9_values 7836 45298 1.5 3) in
  decoded b = true
  /\ Forall2 Qeq
       (map row_cts (snd (process_block Samples.strict_filter "f" 0 3 b Samples.s0)))
       [ 0; 2000 ]%Q.
Proof.
  intros b.
  assert (H : decoded b = true) by reflexivity.
  split; [exact H |].
  pose proof (X19_rows_stamped_by_sample_index Samples.strict_filter "f" 0 3 b
                Samples.s0 H) as R.
  revert R. apply (Forall2_Qeq_map_ext _ (fun i => inject_Z (Z.of_nat i) * 1000)%Q [0; 2]%nat).
  intros i. vm_compute (file_start Samples.s0). unfold b. cbn [samples Samples.gps9_block].
  field.
Defined.

(** ** The state of a run without "GPS9" blocks *)

Section OptionsIndependence.

Variables o o' : options.

Lemma sample_state_independent name name' b step c s :
  key b <> GPS9 ->
  fst (sample o name b step c s) = fst (sample o' name' b step c s).
Proof.
  intros K. unfold sample. destruct (key b); try reflexivity.
  - destruct (use_gps9 s); reflexivity.
  - now contradiction K.
Qed.

Lemma sample_loop_state_independent name name' b step n :
  key b <> GPS9 ->
  forall c s,
    fst (sample_loop o name b step n c s) = fst (sample_loop o' name' b step n c s).
Proof.
  intros K. induction n as [| n IH]; intros c s; [reflexivity |].
  cbn [sample_loop].
  pose proof (sample_state_independent name name' b step c s K) as H.
  destruct (sample o name b step c s) as [[c1 s1] out1].
  destruct (sample o' name' b step c s) as [[c1' s1'] out1'].
  cbn [fst] in H. injection H as <- <-.
  specialize (IH c1 s1).
  destruct (sample_loop o name b step n c1 s1) as [[c2 s2] out2].
  destruct (sample_loop o' name' b step n c1 s1) as [[c2' s2'] out2'].
  exact IH.
Qed.

Lemma process_block_state_independent name name' st fi b s :
  key b <> GPS9 ->
  fst (process_block o name st fi b s) = fst (process_block o' name' st fi b s).
Proof.
  intros K. destruct (decoded b) eqn:D.
  - rewrite !process_block_decoded by assumption.
    pose proof (sample_loop_state_independent name name' b
                  ((fi - st) / inject_Z (samples b))%Q (Z.to_nat (samples b)) K
                  (mk_cursor 0 st) (set_file_finish fi s)) as H.
    destruct (sample_loop o _ _ _ _ _ _) as [[c1 s1] out].
    destruct (sample_loop o' _ _ _ _ _ _) as [[c1' s1'] out'].
    cbn [fst] in *. congruence.
  - now rewrite !process_block_not_decoded.
Qed.

Lemma block_loop_state_independent name name' st fi bs :
  Forall (fun b => key b <> GPS9) bs ->
  forall s, fst (block_loop o name st fi bs s) = fst (block_loop o' name' st fi bs s).
Proof.
  induction 1 as [| b rest K _ IH]; intros s; [reflexivity |].
  cbn [block_loop].
  pose proof (process_block_state_independent name name' st fi b s K) as H.
  destruct (process_block o name st fi b s) as [s1 out1].
  destruct (process_block o' name' st fi b s) as [s1' out1'].
  cbn [fst] in H. subst s1'.
  specialize (IH s1).
  destruct (block_loop o name st fi rest s1) as [s2 out2].
  destruct (block_loop o' name' st fi rest s1) as [s2' out2'].
  exact IH.
Qed.

Lemma payload_loop_state_independent name name' ps :
  Forall (fun b => key b <> GPS9) (flat_map blocks ps) ->
  forall s, fst (payload_loop o name ps s) = fst (payload_loop o' name' ps s).
Proof.
  induction ps as [| p rest IH]; intros H s; [reflexivity |].
  cbn [flat_map] in H. apply Forall_app in H as [Hp Hrest].
  cbn [payload_loop].
  destruct (negb (payload_ok p)); [reflexivity |].
  destruct (negb (is_ok (ret (set_ret (time_ret p) s)))); [reflexivity |].
  destruct (negb (is_ok (ret (set_ret (init_ret p) (set_ret (time_ret p) s)))));
    [reflexivity |].
  pose proof (block_loop_state_independent name name' (start p) (finish p) (blocks p) Hp
                (set_ret (init_ret p) (set_ret (time_ret p) s))) as H1.
  destruct (block_loop o _ _ _ _ _) as [s3 out1].
  destruct (block_loop o' _ _ _ _ _) as [s3' out1'].
  cbn [fst] in H1. subst s3'.
  specialize (IH Hrest s3).
  destruct (payload_loop o name rest s3) as [s4 out2].
  destruct (payload_loop o' name' rest s3) as [s4' out2'].
  exact IH.
Qed.

Lemma process_file_state_independent f s :
  Forall (fun b => key b <> GPS9) (flat_map blocks (payloads f)) ->
  fst (process_file o f s) = fst (process_file o' f s).
Proof.
  intros H. unfold process_file.
  pose proof (payload_loop_state_independent (mp4filename f) (mp4filename f) (payloads f)
                H (set_file_finish 0 s)) as H1.
  destruct (payload_loop o _ _ _) as [s1 out].
  destruct (payload_loop o' _ _ _) as [s1' out'].
  cbn [fst] in H1. subst s1'.
  destruct (is_ok (ret s1)); reflexivity.
Qed.

Lemma file_loop_state_independent fs :
  Forall (fun b => key b <> GPS9) (all_blocks fs) ->
  forall first first' s,
    fst (file_loop o first fs s) = fst (file_loop o' first' fs s).
Proof.
  unfold all_blocks.
  induction fs as [| f rest IH]; intros H first first' s; [reflexivity |].
  cbn [flat_map] in H. apply Forall_app in H as [Hf Hrest].
  cbn [file_loop].
  destruct (negb (mp4handle_ok f)); [reflexivity |].
  destruct (Qle_bool (metadataduration f) 0); [reflexivity |].
  pose proof (process_file_state_independent f s Hf) as H1.
  destruct (process_file o f s) as [[go_on s1] out].
  destruct (process_file o' f s) as [[go_on' s1'] out'].
  cbn [fst] in H1. injection H1 as <- <-.
  destruct go_on; [| reflexivity].
  specialize (IH Hrest false false s1).
  destruct (file_loop o false rest s1) as [[e s2] out2].
  destruct (file_loop o' false rest s1) as [[e' s2'] out2'].
  exact IH.
Qed.

End OptionsIndependence.

(** X20: in a run without "GPS9" blocks the options decide only what is
    printed: the exit status and the final state (clock, carried fix and
    precision, time base) are the same for all thresholds and print options. *)
Theorem X20_state_independent_of_options (o o' : options) (fs : list file)
    (Hkeys : Forall (fun b => key b <> GPS9) (all_blocks fs)) :
  forall s, fst (file_loop o true fs s) = fst (file_loop o' true fs s).
Proof.
  intros s. now apply file_loop_state_independent.
Qed.

Lemma X20_state_independent_of_options_witness :
  Forall (fun b => key b <> GPS9) (all_blocks [Samples.file_gps5; Samples.file_a'])
  /\ fst (file_loop Samples.no_filter true [Samples.file_gps5; Samples.file_a'] Samples.s0)
     = fst (file_loop (mk_options 4 10 true true) true
              [Samples.file_gps5; Samples.file_a'] Samples.s0).
Proof.
  assert (H : Forall (fun b => key b <> GPS9)
                (all_blocks [Samples.file_gps5; Samples.file_a'])).
  { repeat constructor; discriminate. }
  split; [exact H |].
  exact (X20_state_independent_of_options Samples.no_filter (mk_options 4 10 true true)
           [Samples.file_gps5; Samples.file_a'] H Samples.s0).
Defined.

(** ** The precision of the "GPS9" seed *)

Lemma trunc_floor (x : Q) : (0 <= x)%Q -> trunc x = Qfloor x.
Proof.
  destruct x as [n d]. unfold Qle, trunc, Qfloor. cbn [Qnum Qden].
  intros H. apply Z.quot_div_nonneg; lia.
Qed.

Lemma trunc_bounds (x : Q) :
  (0 <= x)%Q -> (inject_Z (trunc x) <= x /\ x < inject_Z (trunc x) + 1)%Q.
Proof.
  intros H. rewrite (trunc_floor x H). split.
  - apply Qfloor_le.
  - pose proof (Qlt_floor x) as L. rewrite inject_Z_plus in L. exact L.
Qed.

Lemma trunc_nonneg (x : Q) : (0 <= x)%Q -> 0 <= trunc x.
Proof.
  intros H. rewrite (trunc_floor x H).
  change 0 with (Qfloor 0). now apply Qfloor_resp_le.
Qed.

(** X21: for a non-negative seconds-of-day field, the clock seeded from a
    "GPS9" sample has its milliseconds in [0,1000) and is the instant of the
    sample, 2000-01-01 plus the (truncated) days plus the seconds, cut to the
    whole millisecond: it is at most that instant and less than one
    millisecond before it. *)
Theorem X21_gps9_seed_millisecond_precision (b : block) (c : cursor)
    (Hsecs : (0 <= read_double b c 6)%Q) :
  (0 <= milliseconds (gps9_seed b c) /\ milliseconds (gps9_seed b c) < 1000)%Q
  /\ (clock_millis (gps9_seed b c)
      <= inject_Z (946684800 + trunc (read_double b c 5) * 86400) * 1000
         + read_double b c 6 * 1000)%Q
  /\ (inject_Z (946684800 + trunc (read_double b c 5) * 86400) * 1000
      + read_double b c 6 * 1000
      < clock_millis (gps9_seed b c) + 1)%Q.
Proof.
  rewrite gps9_seed_formula. unfold clock_millis. cbn [time milliseconds].
  change (LibC.timegm (LibC.mk_tm 0 0 0 1 0 100)) with 946684800.
  set (x := read_double b c 6) in *. set (d := trunc (read_double b c 5)).
  destruct (trunc_bounds x Hsecs) as [L U].
  assert (F : (0 <= 1000 * fmod1 x)%Q) by (unfold fmod1; lra).
  assert (F' : (1000 * fmod1 x < 1000)%Q) by (unfold fmod1; lra).
  destruct (trunc_bounds _ F) as [L2 U2].
  pose proof (trunc_nonneg _ F) as N2.
  assert (N2Q : (0 <= inject_Z (trunc (1000 * fmod1 x)))%Q).
  { change 0%Q with (inject_Z 0). now rewrite <- Zle_Qle. }
  rewrite !inject_Z_plus. unfold fmod1 in *.
  repeat split; lra.
Qed.

(** Day 7836 of the century, 12:34:56.7891 into the day. *)
Lemma X21_gps9_seed_millisecond_precision_witness :
  let b := Samples.gps9_block 1 (Samples.gps9_values 7836 45296.7891 1.5 3) in
  (0 <= read_double b (mk_cursor 0 0) 6)%Q
  /\ (0 <= milliseconds (gps9_seed b (mk_cursor 0 0))
      /\ milliseconds (gps9_seed b (mk_cursor 0 0)) < 1000)%Q
  /\ (milliseconds (gps9_seed b (mk_cursor 0 0)) == 789)%Q.
Proof.
  intros b.
  assert (H : (0 <= read_double b (mk_cursor 0 0) 6)%Q) by (vm_compute; discriminate).
  split; [exact H | split].
  - exact (proj1 (X21_gps9_seed_millisecond_precision b (mk_cursor 0 0) H)).
  - vm_compute. reflexivity.
Defined.
